(** * TimeUtils: calendar arithmetic and the fixed-width ISO-8601 codec

    A shallow embedding of [AVSCommon/Utils/src/TimeUtils.cpp].

    Conventions of the embedding.
    - [std::time_t] is a signed 64-bit integer and [int] a signed 32-bit
      integer.  Values are carried as [Z].  The one [int] operation of
      [timegmCustom], [tm_mday - 1], has no defined result when it leaves
      the range of [int] ([int_sub]); lemma [timegmCustom_no_overflow]
      shows that on [int] members no [time_t] intermediate leaves the
      64-bit range, and lemma [stringToInt_bound] that the fields of the
      parser are far inside [int], so no wrap-around is ever taken.
    - C++ [/] and [%] truncate toward zero: they are [Z.quot] and [Z.rem].
    - The file models the build with [USE_CUSTOM_TIMEGM] set to 1 (every
      platform but Linux), where [convertToUtcTimeT] calls [timegmCustom].
    - Reading a C array outside its bounds has no defined result; such a
      read is [None] in [index], and [Undefined] at the level of a call.
    - Collaborators whose code is outside this file ([stringToInt],
      [SafeCTimeAccess::getGmtime], [std::strftime], the clocks) are
      parameters of the functions that call them. *)

From Stdlib Require Import ZArith List Bool Lia.
From Stdlib Require Import Strings.String Strings.Ascii Numbers.DecimalString.
Import ListNotations.

Local Open Scope Z_scope.

(** ** [struct std::tm]

    Only the members this file reads or writes are kept: [tm_wday] and
    [tm_yday] are never touched by [TimeUtils.cpp].  The members are C
    [int]s; statements about the values a [struct tm] can hold say so with
    [int_range]. *)
Record tm : Type := mk_tm {
  tm_sec : Z;
  tm_min : Z;
  tm_hour : Z;
  tm_mday : Z;
  tm_mon : Z;
  tm_year : Z;
  tm_isdst : Z
}.

(** ** Constants of the anonymous namespace *)
Module Calendar.

Definition kSecondsInMinute : Z := 60.
Definition kMinutesInHour : Z := 60.
Definition kHoursInDay : Z := 24.
Definition kDaysInYear : Z := 365.
Definition kSecondsInHour : Z := kSecondsInMinute * kMinutesInHour.
Definition kSecondsInDay : Z := kSecondsInHour * kHoursInDay.
Definition kSecondsInYear : Z := kDaysInYear * kSecondsInDay.
Definition kEpochYearBase : Z := 1970.
Definition kTMYearBase : Z := 1900.

Definition kDaysUptoMonth : list Z := [
  0;
  31;
  31 + 28;
  31 + 28 + 31;
  31 + 28 + 31 + 30;
  31 + 28 + 31 + 30 + 31;
  31 + 28 + 31 + 30 + 31 + 30;
  31 + 28 + 31 + 30 + 31 + 30 + 31;
  31 + 28 + 31 + 30 + 31 + 30 + 31 + 31;
  31 + 28 + 31 + 30 + 31 + 30 + 31 + 31 + 30;
  31 + 28 + 31 + 30 + 31 + 30 + 31 + 31 + 30 + 31;
  31 + 28 + 31 + 30 + 31 + 30 + 31 + 31 + 30 + 31 + 30
].

Definition kDaysUptoMonthLeapYear : list Z := [
  0;
  31;
  31 + 29;
  31 + 29 + 31;
  31 + 29 + 31 + 30;
  31 + 29 + 31 + 30 + 31;
  31 + 29 + 31 + 30 + 31 + 30;
  31 + 29 + 31 + 30 + 31 + 30 + 31;
  31 + 29 + 31 + 30 + 31 + 30 + 31 + 31;
  31 + 29 + 31 + 30 + 31 + 30 + 31 + 31 + 30;
  31 + 29 + 31 + 30 + 31 + 30 + 31 + 31 + 30 + 31;
  31 + 29 + 31 + 30 + 31 + 30 + 31 + 31 + 30 + 31 + 30
].

(** [table[i]] on a C array: defined only inside the array. *)
Definition index (table : list Z) (i : Z) : option Z :=
  if i <? 0 then None else nth_error table (Z.to_nat i).

(** [IsLeapYear]; [year] is base 1900. *)
Definition IsLeapYear (year : Z) : bool :=
  let common_year :=
    negb (Z.land year 3 =? 0) ||
    ((Z.rem (year + kTMYearBase) 100 =? 0) &&
     negb (Z.rem (year + kTMYearBase) 400 =? 0)) in
  negb common_year.

Definition kPosBase4 : Z := Z.rem (kEpochYearBase + 3) 4.
Definition kPosBase100 : Z := Z.rem (kEpochYearBase + 99) 100.
Definition kPosBase400 : Z := Z.rem (kEpochYearBase + 399) 400.
Definition kNegBase4 : Z := 4 - Z.rem kEpochYearBase 4.
Definition kNegBase100 : Z := 100 - Z.rem kEpochYearBase 100.
Definition kNegBase400 : Z := 400 - Z.rem kEpochYearBase 400.

(** [NumLeapDays]; [year] is base 1970. *)
Definition NumLeapDays (year : Z) : Z :=
  if year >=? 0 then
    Z.quot (year + kPosBase4) 4 - Z.quot (year + kPosBase100) 100 +
    Z.quot (year + kPosBase400) 400
  else
    Z.quot (year - kNegBase4) 4 - Z.quot (year - kNegBase100) 100 +
    Z.quot (year - kNegBase400) 400.

(** The values of an [int] and of a 64-bit [std::time_t]. *)
Definition int_range (v : Z) : Prop := - 2 ^ 31 <= v < 2 ^ 31.
Definition time_t_range (v : Z) : Prop := - 2 ^ 63 <= v < 2 ^ 63.

Definition is_int (v : Z) : bool := (- 2 ^ 31 <=? v) && (v <? 2 ^ 31).

(** [a - b] on two [int]s: a signed overflow has no defined result. *)
Definition int_sub (a b : Z) : option Z :=
  if is_int (a - b) then Some (a - b) else None.

(** [timegmCustom].  The result is [None] when [tm_mon] indexes outside the
    twelve-entry month tables, and when [tm->tm_mday - 1], an [int]
    subtraction, overflows; every other operation is on [std::time_t]. *)
Definition timegmCustom (t : tm) : option Z :=
  let years_since_epoch := tm_year t + kTMYearBase - kEpochYearBase in
  let time :=
    years_since_epoch * kSecondsInYear +
    NumLeapDays years_since_epoch * kSecondsInDay in
  match (if IsLeapYear (tm_year t)
         then option_map (fun d => d * kSecondsInDay)
                (index kDaysUptoMonthLeapYear (tm_mon t))
         else option_map (fun d => d * kSecondsInDay)
                (index kDaysUptoMonth (tm_mon t))),
        int_sub (tm_mday t) 1 with
  | Some months, Some days =>
      let time := time + months in
      let time :=
        time + (days * kSecondsInDay + tm_hour t * kSecondsInHour +
                tm_min t * kSecondsInMinute + tm_sec t) in
      Some time
  | _, _ => None
  end.

End Calendar.

(** The integers [x] with [from <= x < to], in increasing order. *)
Definition interval (from to : Z) : list Z :=
  map (fun i => from + Z.of_nat i) (seq 0 (Z.to_nat (to - from))).

(** ** The Gregorian rule, in the words of the specification *)
Module Gregorian.

(** A year is a leap year iff it is divisible by 4 and (it is not divisible by
    100 or it is divisible by 400). *)
Definition leap (Y : Z) : Prop :=
  (4 | Y) /\ (~ (100 | Y) \/ (400 | Y)).

Definition leapb (Y : Z) : bool :=
  (Y mod 4 =? 0) && (negb (Y mod 100 =? 0) || (Y mod 400 =? 0)).

(** The number of leap years [Y] with [from <= Y < to]. *)
Definition leap_years (from to : Z) : Z :=
  Z.of_nat (List.length (filter leapb (interval from to))).

(** Leap years up to and including [N], by floor division. *)
Definition leap_years_upto (N : Z) : Z := N / 4 - N / 100 + N / 400.

End Gregorian.

(** ** Calls with an output parameter

    Several operations return [bool] and deliver their result through a
    pointer.  A pointer argument is either null or the address of an object
    of the caller; a call either has undefined behaviour or returns, and
    then it has a returned flag, the value it stored through the output
    pointer ([None] when the call stored nothing, so that the object behind
    the pointer is as it was before the call) and the errors it logged. *)
Inductive pointer : Type := nullptr | address.

(** [ACSDK_ERROR(LX(event).m(message))] and
    [ACSDK_ERROR(LX(event).d(key, value))]. *)
Inductive LogEntry : Type :=
| LX_m (event message : string)
| LX_d (event key : string) (value : nat).

Inductive Call (A : Type) : Type :=
| Returns (result : bool) (stored : option A) (log : list LogEntry)
| Undefined.
Arguments Returns {A} result stored log.
Arguments Undefined {A}.

(** The object behind a non-null output pointer after a call that stored
    [stored], when it held [before]. *)
Definition behind {A : Type} (before : A) (stored : option A) : A :=
  match stored with
  | Some v => v
  | None => before
  end.

(** ** The layout of the encoded time string *)
Module Layout.
Local Open Scope nat_scope.
Local Open Scope string_scope.

Definition ENCODED_TIME_STRING_YEAR_STRING_LENGTH : nat := 4.
Definition ENCODED_TIME_STRING_MONTH_STRING_LENGTH : nat := 2.
Definition ENCODED_TIME_STRING_DAY_STRING_LENGTH : nat := 2.
Definition ENCODED_TIME_STRING_HOUR_STRING_LENGTH : nat := 2.
Definition ENCODED_TIME_STRING_MINUTE_STRING_LENGTH : nat := 2.
Definition ENCODED_TIME_STRING_SECOND_STRING_LENGTH : nat := 2.
Definition ENCODED_TIME_STRING_POSTFIX_STRING_LENGTH : nat := 4.
Definition ENCODED_TIME_STRING_DASH_SEPARATOR_STRING : string := "-".
Definition ENCODED_TIME_STRING_T_SEPARATOR_STRING : string := "T".
Definition ENCODED_TIME_STRING_COLON_SEPARATOR_STRING : string := ":".
Definition ENCODED_TIME_STRING_PLUS_SEPARATOR_STRING : string := "+".

Definition ENCODED_TIME_STRING_YEAR_OFFSET : nat := 0.
Definition ENCODED_TIME_STRING_MONTH_OFFSET : nat :=
  ENCODED_TIME_STRING_YEAR_OFFSET + ENCODED_TIME_STRING_YEAR_STRING_LENGTH +
  String.length ENCODED_TIME_STRING_DASH_SEPARATOR_STRING.
Definition ENCODED_TIME_STRING_DAY_OFFSET : nat :=
  ENCODED_TIME_STRING_MONTH_OFFSET + ENCODED_TIME_STRING_MONTH_STRING_LENGTH +
  String.length ENCODED_TIME_STRING_DASH_SEPARATOR_STRING.
Definition ENCODED_TIME_STRING_HOUR_OFFSET : nat :=
  ENCODED_TIME_STRING_DAY_OFFSET + ENCODED_TIME_STRING_DAY_STRING_LENGTH +
  String.length ENCODED_TIME_STRING_T_SEPARATOR_STRING.
Definition ENCODED_TIME_STRING_MINUTE_OFFSET : nat :=
  ENCODED_TIME_STRING_HOUR_OFFSET + ENCODED_TIME_STRING_HOUR_STRING_LENGTH +
  String.length ENCODED_TIME_STRING_COLON_SEPARATOR_STRING.
Definition ENCODED_TIME_STRING_SECOND_OFFSET : nat :=
  ENCODED_TIME_STRING_MINUTE_OFFSET + ENCODED_TIME_STRING_MINUTE_STRING_LENGTH +
  String.length ENCODED_TIME_STRING_COLON_SEPARATOR_STRING.

Definition ENCODED_TIME_STRING_EXPECTED_LENGTH : nat :=
  ENCODED_TIME_STRING_SECOND_OFFSET + ENCODED_TIME_STRING_SECOND_STRING_LENGTH +
  String.length ENCODED_TIME_STRING_PLUS_SEPARATOR_STRING +
  ENCODED_TIME_STRING_POSTFIX_STRING_LENGTH.

(** [s.substr(pos, len)].  Every call in this file comes after the length
    test, with [pos + len] inside the string, where [std::string::substr]
    neither throws nor shortens the result. *)
Definition substr (s : string) (pos len : nat) : string := substring pos len s.

End Layout.

(** ** The methods of [TimeUtils] *)
Module TimeUtils.
Import Calendar Layout.
Local Open Scope string_scope.

(** [convertToUtcTimeT], in the build where [USE_CUSTOM_TIMEGM] is 1. *)
Definition convertToUtcTimeT (utcTm : tm) (ret : pointer) : Call Z :=
  match ret with
  | nullptr =>
      Returns false None [LX_m "convertToUtcTimeT" "return variable is null"]
  | address =>
      match timegmCustom utcTm with
      | Some time => Returns true (Some time) []
      | None => Undefined
      end
  end.

(** [if (!stringToInt(substring, &field)) { ACSDK_ERROR(...); return false; }] *)
Notation "'read' x '<-' e 'else_error' msg ; k" :=
  (match e with
   | Some x => k
   | None => Returns false None [LX_m "convert8601TimeStringToUnixFailed" msg]
   end)
  (at level 10, x name, e at level 10, msg at level 10, k at level 200,
   only parsing).

Section Parser.

(** [stringToInt] of [AVSCommon/Utils/String/StringUtils.h]: [Some v] when it
    returns true and stores [v], [None] when it returns false. *)
Variable stringToInt : string -> option Z.

Definition convert8601TimeStringToUnix
    (timeString : string) (convertedTime : pointer) : Call Z :=
  match convertedTime with
  | nullptr =>
      Returns false None
        [LX_m "convert8601TimeStringToUnixFailed"
              "convertedTime parameter was nullptr."]
  | address =>
      if negb (String.length timeString =? ENCODED_TIME_STRING_EXPECTED_LENGTH)%nat
      then
        Returns false None
          [LX_d "convert8601TimeStringToUnixFailed"
                "unexpected time string length:" (String.length timeString)]
      else
        read year <-
          stringToInt (substr timeString ENCODED_TIME_STRING_YEAR_OFFSET
                         ENCODED_TIME_STRING_YEAR_STRING_LENGTH)
          else_error ("error parsing year. Input:" ++ timeString);
        read mon <-
          stringToInt (substr timeString ENCODED_TIME_STRING_MONTH_OFFSET
                         ENCODED_TIME_STRING_MONTH_STRING_LENGTH)
          else_error ("error parsing month. Input:" ++ timeString);
        read mday <-
          stringToInt (substr timeString ENCODED_TIME_STRING_DAY_OFFSET
                         ENCODED_TIME_STRING_DAY_STRING_LENGTH)
          else_error ("error parsing day. Input:" ++ timeString);
        read hour <-
          stringToInt (substr timeString ENCODED_TIME_STRING_HOUR_OFFSET
                         ENCODED_TIME_STRING_HOUR_STRING_LENGTH)
          else_error ("error parsing hour. Input:" ++ timeString);
        read min <-
          stringToInt (substr timeString ENCODED_TIME_STRING_MINUTE_OFFSET
                         ENCODED_TIME_STRING_MINUTE_STRING_LENGTH)
          else_error ("error parsing minute. Input:" ++ timeString);
        read sec <-
          stringToInt (substr timeString ENCODED_TIME_STRING_SECOND_OFFSET
                         ENCODED_TIME_STRING_SECOND_STRING_LENGTH)
          else_error ("error parsing second. Input:" ++ timeString);
        (* adjust for C struct tm standard *)
        let timeInfo :=
          {| tm_sec := sec; tm_min := min; tm_hour := hour; tm_mday := mday;
             tm_mon := mon - 1; tm_year := year - 1900; tm_isdst := 0 |} in
        match convertToUtcTimeT timeInfo address with
        | Returns true (Some convertedTimeT) log =>
            Returns true (Some convertedTimeT) log
        | Returns true None _ => Undefined
        | Returns false _ log => Returns false None log
        | Undefined => Undefined
        end
  end.

End Parser.

(** [getCurrentUnixTime]; [now] is what
    [system_clock::to_time_t(system_clock::now())] reads. *)
Definition getCurrentUnixTime (now : Z) (currentTime : pointer) : Call Z :=
  match currentTime with
  | nullptr =>
      Returns false None
        [LX_m "getCurrentUnixTimeFailed" "currentTime parameter was nullptr."]
  | address => Returns (now >=? 0) (Some now) []
  end.

(** [os << std::setfill(fill) << std::setw(width) << v] for an integer [v]:
    the decimal digits, with a leading minus sign when [v] is negative,
    right-adjusted by fill characters up to [width]. *)
Fixpoint fill_chars (n : nat) (fill : ascii) : string :=
  match n with
  | O => ""
  | S k => String fill (fill_chars k fill)
  end.

Definition decimal (v : Z) : string := NilZero.string_of_int (Z.to_int v).

Definition setfill_setw (fill : ascii) (width : nat) (v : Z) : string :=
  let digits := decimal v in
  fill_chars (width - String.length digits) fill ++ digits.

Section Formatter.

(** [m_safeCTimeAccess->getGmtime(time, &tm)]: [Some] of the stored
    breakdown when it returns true. *)
Variable getGmtime : Z -> option tm.

(** [std::strftime(buf, maxsize, format, &tm)], as the characters it puts in
    [buf]; its return value is their number, 0 when the result does not
    fit. *)
Variable strftime : nat -> string -> tm -> string.

(** Ticks of [high_resolution_clock] in one millisecond. *)
Variable ticks_per_ms : Z.

(** [duration_cast<milliseconds>(tp.time_since_epoch()).count()] *)
Definition milliseconds (tp : Z) : Z := Z.quot tp ticks_per_ms.

(** [duration_cast<seconds>(ms).count()] *)
Definition seconds (ms : Z) : Z := Z.quot ms 1000.

(** The characters streamed for [ms.count() % 1000] behind
    [setfill('0')] and [setw(3)]. *)
Definition millisecondField (ms : Z) : string :=
  setfill_setw "0"%char 3 (Z.rem ms 1000).

Definition convertTimeToUtcIso8601Rfc3339
    (tp : Z) (iso8601TimeString : pointer) : Call string :=
  let ms := milliseconds tp in
  let sec := seconds ms in
  let timeSecs := sec in
  match getGmtime timeSecs with
  | None =>
      Returns false None
        [LX_m "convertTimeToUtcIso8601Rfc3339" "cannot retrieve tm struct"]
  | Some utcTm =>
      let buf := strftime (29 - 1) "%Y-%m-%dT%H:%M:%S" utcTm in
      let strftimeResult := String.length buf in
      if (strftimeResult =? 0)%nat then
        Returns false None
          [LX_m "convertTimeToUtcIso8601Rfc3339Failed" "strftime(..) failed"]
      else
        let millisecondTrailer := buf ++ "." ++ millisecondField ms ++ "Z" in
        match iso8601TimeString with
        | nullptr => Undefined
        | address => Returns true (Some millisecondTrailer) []
        end
  end.

End Formatter.

End TimeUtils.

(** ** Civil time, as the specification has it *)
Record CivilTime : Type := mk_civil {
  year : Z;
  month : Z;
  day : Z;
  hour : Z;
  minute : Z;
  second : Z
}.

Module Civil.
Import Calendar.

(** The [struct tm] of a civil time: years count from 1900 and months from 0,
    the adjustment [convert8601TimeStringToUnix] makes. *)
Definition to_tm (c : CivilTime) : tm :=
  {| tm_sec := second c; tm_min := minute c; tm_hour := hour c;
     tm_mday := day c; tm_mon := month c - 1; tm_year := year c - 1900;
     tm_isdst := 0 |}.

Definition of_tm (t : tm) : CivilTime :=
  {| year := tm_year t + 1900; month := tm_mon t + 1; day := tm_mday t;
     hour := tm_hour t; minute := tm_min t; second := tm_sec t |}.

(** [civilToEpoch] of the specification is [timegmCustom]. *)
Definition civilToEpoch (c : CivilTime) : option Z := timegmCustom (to_tm c).

(** The length of a month of the Gregorian calendar. *)
Definition days_in_month (Y M : Z) : Z :=
  if M =? 2 then (if Gregorian.leapb Y then 29 else 28)
  else if (M =? 4) || (M =? 6) || (M =? 9) || (M =? 11) then 30
  else 31.

(** A civil time of the calendar: month in [1, 12], day valid for the month
    and year, hour in [0, 23], minute and second in [0, 59]. *)
Definition valid (c : CivilTime) : Prop :=
  1 <= month c <= 12 /\
  1 <= day c <= days_in_month (year c) (month c) /\
  0 <= hour c <= 23 /\ 0 <= minute c <= 59 /\ 0 <= second c <= 59.

End Civil.

(** ** The collaborators, modelled from the specification *)
Module Collaborators.
Local Open Scope string_scope.

Definition is_digit (c : ascii) : bool :=
  ((48 <=? nat_of_ascii c) && (nat_of_ascii c <=? 57))%nat.

Fixpoint digits_value (acc : Z) (s : string) : option Z :=
  match s with
  | "" => Some acc
  | String c rest =>
      if is_digit c
      then digits_value (10 * acc + Z.of_nat (nat_of_ascii c - 48)) rest
      else None
  end.

(** Modelled from the spec: [stringToInt] of StringUtils, absent from the
    sources at hand.  "String-to-integer parsing: fixed-width digit
    substrings; fails if input contains non-digit characters." *)
Definition stringToInt (s : string) : option Z :=
  match s with
  | "" => None
  | _ => digits_value 0 s
  end.

(** Days since 1970-01-01 to the civil date (year, month, day): the usual
    era-based inverse of the Gregorian day count, with floor division. *)
Definition civil_from_days (days : Z) : Z * Z * Z :=
  let z := days + 719468 in
  let era := z / 146097 in
  let doe := z - era * 146097 in
  let yoe := (doe - doe / 1460 + doe / 36524 - doe / 146096) / 365 in
  let y := yoe + era * 400 in
  let doy := doe - (365 * yoe + yoe / 4 - yoe / 100) in
  let mp := (5 * doy + 2) / 153 in
  let d := doy - (153 * mp + 2) / 5 + 1 in
  let m := if (mp <? 10)%Z then mp + 3 else mp - 9 in
  (if (m <=? 2)%Z then y + 1 else y, m, d).

(** Modelled from the spec: [SafeCTimeAccess::getGmtime], absent from the
    sources at hand.  "getUtcCivilBreakdown(epochSeconds) -> Result<CivilTime,
    Error>", supplied as the "standard inverse civil-calendar algorithm". *)
Definition getGmtime (time : Z) : option tm :=
  let days := time / 86400 in
  let rem := time mod 86400 in
  let '(y, m, d) := civil_from_days days in
  Some {| tm_sec := rem mod 60; tm_min := (rem / 60) mod 60;
          tm_hour := rem / 3600; tm_mday := d; tm_mon := m - 1;
          tm_year := y - 1900; tm_isdst := 0 |}.

(** [epochToCivil] of the specification. *)
Definition epochToCivil (time : Z) : option CivilTime :=
  option_map Civil.of_tm (getGmtime time).

Definition conversion (c : ascii) (t : tm) : string :=
  if (c =? "Y")%char then TimeUtils.decimal (tm_year t + 1900)
  else if (c =? "m")%char then TimeUtils.setfill_setw "0" 2 (tm_mon t + 1)
  else if (c =? "d")%char then TimeUtils.setfill_setw "0" 2 (tm_mday t)
  else if (c =? "H")%char then TimeUtils.setfill_setw "0" 2 (tm_hour t)
  else if (c =? "M")%char then TimeUtils.setfill_setw "0" 2 (tm_min t)
  else if (c =? "S")%char then TimeUtils.setfill_setw "0" 2 (tm_sec t)
  else String "%" (String c "").

Fixpoint render (format : string) (t : tm) : string :=
  match format with
  | "" => ""
  | String c rest =>
      match rest with
      | String k rest' =>
          if (c =? "%")%char then conversion k t ++ render rest' t
          else String c (render rest t)
      | "" => String c ""
      end
  end.

(** Modelled from the spec: [std::strftime] of the platform.  "Renders
    YYYY-MM-DDTHH:MM:SS using the external collaborator's civil breakdown of
    the whole-seconds part, zero-padded fields"; a result that does not fit
    in [maxsize] characters with its terminator leaves nothing usable. *)
Definition strftime (maxsize : nat) (format : string) (t : tm) : string :=
  let s := render format t in
  if (String.length s <? maxsize)%nat then s else "".

(** Exactly three zero-padded decimal digits. *)
Definition digit (d : Z) : ascii := ascii_of_nat (48 + Z.to_nat d).

Definition three_digits (v : Z) : string :=
  String (digit (v / 100)) (String (digit ((v / 10) mod 10))
    (String (digit (v mod 10)) "")).

(** [s] ends in [suffix]. *)
Definition ends_with (suffix s : string) : bool :=
  (String.length suffix <=? String.length s)%nat &&
  (substring (String.length s - String.length suffix) (String.length suffix) s
   =? suffix).

(** [s] ends in a fraction of the output profile: a dot, three decimal
    digits and [Z]. *)
Definition fraction_reversed (l : list ascii) : bool :=
  match l with
  | z :: d3 :: d2 :: d1 :: dot :: _ =>
      (z =? "Z")%char && is_digit d3 && is_digit d2 && is_digit d1 &&
      (dot =? ".")%char
  | _ => false
  end.

Definition ends_with_millis (s : string) : bool :=
  fraction_reversed (rev (list_ascii_of_string s)).

End Collaborators.

(** ** Exhaustive check of the dates of a range of years

    The date part of the round trip is decided by evaluation on every day of
    the years concerned; the day of the month enters [timegmCustom] linearly
    and the time of day is handled by arithmetic. *)
Module RoundTrip.

(** The day number of the first of a month, from [civilToEpoch]. *)
Definition month_start (Y M : Z) : option Z :=
  option_map (fun time => time / 86400)
    (Civil.civilToEpoch (mk_civil Y M 1 0 0 0)).

Definition date_eqb (date : Z * Z * Z) (Y M D : Z) : bool :=
  let '(y, m, d) := date in (y =? Y) && (m =? M) && (d =? D).

Definition month_round_trips (Y M : Z) : bool :=
  match month_start Y M with
  | Some K =>
      forallb (fun D =>
                 date_eqb (Collaborators.civil_from_days (K + (D - 1))) Y M D)
              (interval 1 (Civil.days_in_month Y M + 1))
  | None => false
  end.

Definition year_round_trips (Y : Z) : bool :=
  forallb (month_round_trips Y) (interval 1 13).

End RoundTrip.

(** ** Notions used in the statements *)
Module Notions.
Import Layout.

(** What a caller observes of a call: whether it has defined behaviour, and
    then the returned flag and the value stored through the output pointer.
    The log is left out. *)
Definition outcome {A : Type} (c : Call A) : option (bool * option A) :=
  match c with
  | Returns result stored _ => Some (result, stored)
  | Undefined => None
  end.

(** The civil tuple extracted from the six fixed-offset fields, when all of
    them convert. *)
Definition extracted (stringToInt : string -> option Z) (s : string)
  : option CivilTime :=
  match
    stringToInt (substr s ENCODED_TIME_STRING_YEAR_OFFSET
                   ENCODED_TIME_STRING_YEAR_STRING_LENGTH),
    stringToInt (substr s ENCODED_TIME_STRING_MONTH_OFFSET
                   ENCODED_TIME_STRING_MONTH_STRING_LENGTH),
    stringToInt (substr s ENCODED_TIME_STRING_DAY_OFFSET
                   ENCODED_TIME_STRING_DAY_STRING_LENGTH),
    stringToInt (substr s ENCODED_TIME_STRING_HOUR_OFFSET
                   ENCODED_TIME_STRING_HOUR_STRING_LENGTH),
    stringToInt (substr s ENCODED_TIME_STRING_MINUTE_OFFSET
                   ENCODED_TIME_STRING_MINUTE_STRING_LENGTH),
    stringToInt (substr s ENCODED_TIME_STRING_SECOND_OFFSET
                   ENCODED_TIME_STRING_SECOND_STRING_LENGTH)
  with
  | Some y, Some mo, Some d, Some h, Some mi, Some se =>
      Some (mk_civil y mo d h mi se)
  | _, _, _, _, _, _ => None
  end.

(** The positions of the six digit fields: 0-3, 5-6, 8-9, 11-12, 14-15 and
    17-18. *)
Definition digit_positions : list nat :=
  (seq ENCODED_TIME_STRING_YEAR_OFFSET ENCODED_TIME_STRING_YEAR_STRING_LENGTH ++
   seq ENCODED_TIME_STRING_MONTH_OFFSET ENCODED_TIME_STRING_MONTH_STRING_LENGTH ++
   seq ENCODED_TIME_STRING_DAY_OFFSET ENCODED_TIME_STRING_DAY_STRING_LENGTH ++
   seq ENCODED_TIME_STRING_HOUR_OFFSET ENCODED_TIME_STRING_HOUR_STRING_LENGTH ++
   seq ENCODED_TIME_STRING_MINUTE_OFFSET ENCODED_TIME_STRING_MINUTE_STRING_LENGTH ++
   seq ENCODED_TIME_STRING_SECOND_OFFSET ENCODED_TIME_STRING_SECOND_STRING_LENGTH)%list.

(** The output format of [convertTimeToUtcIso8601Rfc3339]. *)
Definition format : string := "%Y-%m-%dT%H:%M:%S".

(** Checks run over every remainder of a division by 1000. *)
Definition padded_as_three_digits (v : Z) : bool :=
  (TimeUtils.setfill_setw "0" 3 v =? Collaborators.three_digits v)%string.

Definition negative_field_off_profile (v : Z) : bool :=
  let field := TimeUtils.setfill_setw "0" 3 v in
  let tail := rev (list_ascii_of_string ("." ++ field ++ "Z")) in
  (5 <=? List.length tail)%nat &&
  negb (Collaborators.fraction_reversed tail) &&
  negb (field =? Collaborators.three_digits (v mod 1000))%string.

End Notions.

(** A call that, when it returns false, has stored nothing: the object
    behind the output pointer is the one the caller had before. *)
Definition untouched_on_failure {A : Type} (c : Call A) : Prop :=
  forall (stored : option A) (log : list LogEntry),
    c = Returns false stored log ->
    stored = None /\ forall before : A, behind before stored = before.

(** ** The day count of the proleptic Gregorian calendar

    Calendar-side definitions, independent of the code: they are what the
    arithmetic of [timegmCustom] is compared with on all years. *)
Module Dates.

Definition Zsum (l : list Z) : Z := fold_right Z.add 0 l.

(** Whole days of the year [Y] before the first of month [M]. *)
Definition days_before_month (Y M : Z) : Z :=
  Zsum (map (Civil.days_in_month Y) (interval 1 M)).

Definition days_in_year (Y : Z) : Z :=
  if Gregorian.leapb Y then 366 else 365.

(** Days from 1970-01-01 to the first of January of [Y]: 365 for each year
    and one more for each leap year in between, negative before 1970. *)
Definition year_start (Y : Z) : Z :=
  365 * (Y - 1970) +
  (Gregorian.leap_years_upto (Y - 1) - Gregorian.leap_years_upto 1969).

(** Days from 1970-01-01 to the date of [c]. *)
Definition day_number (c : CivilTime) : Z :=
  year_start (year c) + days_before_month (year c) (month c) + (day c - 1).

(** Seconds since midnight. *)
Definition time_of_day (c : CivilTime) : Z :=
  hour c * 3600 + minute c * 60 + second c.

(** A date of the calendar: month in [1, 12], day within the month. *)
Definition valid_date (c : CivilTime) : Prop :=
  1 <= month c <= 12 /\
  1 <= day c <= Civil.days_in_month (year c) (month c).

(** The same time of day on the following and on the preceding date. *)
Definition next_day (c : CivilTime) : CivilTime :=
  if day c <? Civil.days_in_month (year c) (month c)
  then mk_civil (year c) (month c) (day c + 1) (hour c) (minute c) (second c)
  else if month c <? 12
  then mk_civil (year c) (month c + 1) 1 (hour c) (minute c) (second c)
  else mk_civil (year c + 1) 1 1 (hour c) (minute c) (second c).

Definition prev_day (c : CivilTime) : CivilTime :=
  if 1 <? day c
  then mk_civil (year c) (month c) (day c - 1) (hour c) (minute c) (second c)
  else if 1 <? month c
  then mk_civil (year c) (month c - 1)
         (Civil.days_in_month (year c) (month c - 1))
         (hour c) (minute c) (second c)
  else mk_civil (year c - 1) 12 31 (hour c) (minute c) (second c).

(** [c1] comes before [c2], field by field from the year down. *)
Definition earlier (c1 c2 : CivilTime) : Prop :=
  year c1 < year c2 \/
  year c1 = year c2 /\
  (month c1 < month c2 \/
   month c1 = month c2 /\
   (day c1 < day c2 \/
    day c1 = day c2 /\
    (hour c1 < hour c2 \/
     hour c1 = hour c2 /\
     (minute c1 < minute c2 \/
      minute c1 = minute c2 /\ second c1 < second c2)))).

End Dates.

(** ** Changes of single members of a [struct tm] *)
Module Fields.

(** [t] with [n] added to [tm_year]. *)
Definition add_years (n : Z) (t : tm) : tm :=
  {| tm_sec := tm_sec t; tm_min := tm_min t; tm_hour := tm_hour t;
     tm_mday := tm_mday t; tm_mon := tm_mon t; tm_year := tm_year t + n;
     tm_isdst := tm_isdst t |}.

(** [t] with the given amounts added to the day of the month, the hour, the
    minute and the second, without any normalisation. *)
Definition add_fields (days hours minutes seconds : Z) (t : tm) : tm :=
  {| tm_sec := tm_sec t + seconds; tm_min := tm_min t + minutes;
     tm_hour := tm_hour t + hours; tm_mday := tm_mday t + days;
     tm_mon := tm_mon t; tm_year := tm_year t; tm_isdst := tm_isdst t |}.

(** The members [timegmCustom] reads are [int]s, and the day of the month
    is above [INT_MIN], so that [tm_mday - 1] is an [int] too: the values a
    [struct tm] can hold on which every operation of [timegmCustom] is
    defined. *)
Definition int_members (t : tm) : Prop :=
  Calendar.int_range (tm_sec t) /\ Calendar.int_range (tm_min t) /\
  Calendar.int_range (tm_hour t) /\ Calendar.int_range (tm_mday t) /\
  Calendar.int_range (tm_mon t) /\ Calendar.int_range (tm_year t) /\
  Calendar.int_range (tm_mday t - 1).

(** The six members [timegmCustom] reads. *)
Definition same_civil_fields (t t' : tm) : Prop :=
  tm_sec t = tm_sec t' /\ tm_min t = tm_min t' /\ tm_hour t = tm_hour t' /\
  tm_mday t = tm_mday t' /\ tm_mon t = tm_mon t' /\ tm_year t = tm_year t'.

End Fields.

(** ** The values [timegmCustom] forms, in the order of the source *)
Module Intermediates.
Import Calendar.

(** The sums, quotients and differences of [NumLeapDays], on the branch the
    sign of [year] selects. *)
Definition of_NumLeapDays (year : Z) : list Z :=
  if year >=? 0 then
    [ year + kPosBase4; Z.quot (year + kPosBase4) 4;
      year + kPosBase100; Z.quot (year + kPosBase100) 100;
      Z.quot (year + kPosBase4) 4 - Z.quot (year + kPosBase100) 100;
      year + kPosBase400; Z.quot (year + kPosBase400) 400;
      Z.quot (year + kPosBase4) 4 - Z.quot (year + kPosBase100) 100 +
      Z.quot (year + kPosBase400) 400 ]
  else
    [ year - kNegBase4; Z.quot (year - kNegBase4) 4;
      year - kNegBase100; Z.quot (year - kNegBase100) 100;
      Z.quot (year - kNegBase4) 4 - Z.quot (year - kNegBase100) 100;
      year - kNegBase400; Z.quot (year - kNegBase400) 400;
      Z.quot (year - kNegBase4) 4 - Z.quot (year - kNegBase100) 100 +
      Z.quot (year - kNegBase400) 400 ].

(** The values of [IsLeapYear]: the masked year, the full year and its two
    remainders. *)
Definition of_IsLeapYear (year : Z) : list Z :=
  [ Z.land year 3; year + kTMYearBase; Z.rem (year + kTMYearBase) 100;
    Z.rem (year + kTMYearBase) 400 ].

(** Every [std::time_t] value [timegmCustom] computes, [d] being the entry
    read from the month table: the year offsets, the products, the values
    inside [NumLeapDays] and [IsLeapYear], and [time] after each
    assignment. *)
Definition of_timegmCustom (t : tm) (d : Z) : list Z :=
  let years_since_epoch := tm_year t + kTMYearBase - kEpochYearBase in
  let time0 :=
    years_since_epoch * kSecondsInYear +
    NumLeapDays years_since_epoch * kSecondsInDay in
  let time1 := time0 + d * kSecondsInDay in
  let day_seconds := (tm_mday t - 1) * kSecondsInDay in
  ([ tm_year t + kTMYearBase; years_since_epoch;
     years_since_epoch * kSecondsInYear ] ++
   of_NumLeapDays years_since_epoch ++
   [ NumLeapDays years_since_epoch * kSecondsInDay; time0 ] ++
   of_IsLeapYear (tm_year t) ++
   [ d * kSecondsInDay; time1;
     day_seconds; tm_hour t * kSecondsInHour;
     day_seconds + tm_hour t * kSecondsInHour;
     tm_min t * kSecondsInMinute;
     day_seconds + tm_hour t * kSecondsInHour + tm_min t * kSecondsInMinute;
     day_seconds + tm_hour t * kSecondsInHour + tm_min t * kSecondsInMinute +
     tm_sec t;
     time1 +
     (day_seconds + tm_hour t * kSecondsInHour + tm_min t * kSecondsInMinute +
      tm_sec t) ])%list.

End Intermediates.

(** ** Checks of the modelled rendering, run over the values of a field *)
Module Rendering.

Definition reads_back (s : string) (v : Z) : bool :=
  match Collaborators.stringToInt s with
  | Some v' => v' =? v
  | None => false
  end.

(** A year is rendered on four characters that read back as the year. *)
Definition year_renders (Y : Z) : bool :=
  (String.length (TimeUtils.decimal Y) =? 4)%nat &&
  reads_back (TimeUtils.decimal Y) Y.

(** A two-digit field is rendered on two characters that read back as the
    field. *)
Definition field_renders (v : Z) : bool :=
  (String.length (TimeUtils.setfill_setw "0" 2 v) =? 2)%nat &&
  reads_back (TimeUtils.setfill_setw "0" 2 v) v.

(** The first second of 1901, 25202 days before the epoch. *)
Definition year_1901 : Z := -25202 * 86400.

(** The first second of 2101, 47847 days after the epoch. *)
Definition year_2101 : Z := 47847 * 86400.

End Rendering.

(** ** Leap-year rules: proofs *)
Section LeapYearRules.
Import Calendar.

Lemma leapb_leap (Y : Z) : Gregorian.leapb Y = true <-> Gregorian.leap Y.
Proof.
  unfold Gregorian.leapb, Gregorian.leap.
  rewrite andb_true_iff, orb_true_iff, negb_true_iff.
  rewrite !Z.eqb_eq, Z.eqb_neq.
  rewrite <- !Z.mod_divide by discriminate.
  reflexivity.
Qed.

Lemma land_3_mod_4 (a : Z) : Z.land a 3 = a mod 4.
Proof. exact (Z.land_ones a 2 ltac:(discriminate)). Qed.

Lemma rem_zero_mod_zero (a b : Z) : b <> 0 -> (Z.rem a b = 0 <-> a mod b = 0).
Proof.
  intro Hb. rewrite Z.rem_divide, Z.mod_divide by assumption. reflexivity.
Qed.

(** The bit test and the truncating remainders of [IsLeapYear] decide the
    Gregorian rule on the full year, for every base-1900 year. *)
Lemma IsLeapYear_leapb (year : Z) :
  IsLeapYear year = Gregorian.leapb (year + kTMYearBase).
Proof.
  unfold IsLeapYear, Gregorian.leapb, kTMYearBase.
  rewrite land_3_mod_4.
  replace ((year + 1900) mod 4) with (year mod 4)
    by (rewrite <- (Z.mod_add year 475 4) by discriminate; f_equal; lia).
  assert (H100 : (Z.rem (year + 1900) 100 =? 0) = ((year + 1900) mod 100 =? 0)).
  { apply eq_true_iff_eq. rewrite !Z.eqb_eq. apply rem_zero_mod_zero. discriminate. }
  assert (H400 : (Z.rem (year + 1900) 400 =? 0) = ((year + 1900) mod 400 =? 0)).
  { apply eq_true_iff_eq. rewrite !Z.eqb_eq. apply rem_zero_mod_zero. discriminate. }
  rewrite H100, H400.
  destruct (year mod 4 =? 0), ((year + 1900) mod 100 =? 0),
    ((year + 1900) mod 400 =? 0); reflexivity.
Qed.

Lemma IsLeapYear_leap (year : Z) :
  IsLeapYear year = true <-> Gregorian.leap (year + kTMYearBase).
Proof. rewrite IsLeapYear_leapb. apply leapb_leap. Qed.

(** Truncating division with the biased dividends is floor division on the
    full year, on both branches. *)
Lemma NumLeapDays_floor (y : Z) :
  NumLeapDays y =
  Gregorian.leap_years_upto (1969 + y) - Gregorian.leap_years_upto 1969.
Proof.
  unfold NumLeapDays, Gregorian.leap_years_upto.
  change kPosBase4 with 1. change kPosBase100 with 69.
  change kPosBase400 with 369. change kNegBase4 with 2.
  change kNegBase100 with 30. change kNegBase400 with 30.
  change (1969 / 4 - 1969 / 100 + 1969 / 400) with 477.
  destruct (Z.geb_spec y 0) as [Hy | Hy];
    Z.to_euclidean_division_equations; lia.
Qed.

Lemma leap_years_upto_step (N : Z) :
  Gregorian.leap_years_upto (N + 1) =
  Gregorian.leap_years_upto N + (if Gregorian.leapb (N + 1) then 1 else 0).
Proof.
  unfold Gregorian.leap_years_upto, Gregorian.leapb.
  destruct (Z.eqb_spec ((N + 1) mod 4) 0) as [H4 | H4];
  destruct (Z.eqb_spec ((N + 1) mod 100) 0) as [H100 | H100];
  destruct (Z.eqb_spec ((N + 1) mod 400) 0) as [H400 | H400];
  cbn [andb orb negb];
  Z.to_euclidean_division_equations; lia.
Qed.

Lemma leap_years_count (from : Z) (n : nat) :
  Z.of_nat (List.length (filter Gregorian.leapb
              (map (fun i => from + Z.of_nat i) (seq 0 n)))) =
  Gregorian.leap_years_upto (from - 1 + Z.of_nat n) -
  Gregorian.leap_years_upto (from - 1).
Proof.
  induction n as [| n IH].
  - cbn. replace (from - 1 + 0) with (from - 1) by lia. lia.
  - rewrite seq_S, map_app, filter_app, length_app, Nat2Z.inj_add, IH.
    replace (from - 1 + Z.of_nat (S n)) with (from - 1 + Z.of_nat n + 1) by lia.
    rewrite leap_years_upto_step.
    replace (from - 1 + Z.of_nat n + 1) with (from + Z.of_nat (0 + n)) by lia.
    cbn [map filter].
    destruct (Gregorian.leapb (from + Z.of_nat (0 + n))); cbn; lia.
Qed.

Lemma leap_years_upto_diff (from to : Z) :
  from <= to ->
  Gregorian.leap_years from to =
  Gregorian.leap_years_upto (to - 1) - Gregorian.leap_years_upto (from - 1).
Proof.
  intro Hle. unfold Gregorian.leap_years, interval.
  rewrite leap_years_count. do 2 f_equal. lia.
Qed.

(** C4. For every year Y in [1600, 2400], [IsLeapYear (Y - 1900)] returns
    true if and only if Y is divisible by 4 and (Y is not divisible by 100 or
    Y is divisible by 400); 2000 gives true, 1900 gives false, 2004 gives
    true and 2001 gives false. *)
Theorem IsLeapYear_Gregorian_rule :
  (forall Y : Z, 1600 <= Y <= 2400 ->
     (IsLeapYear (Y - 1900) = true <-> Gregorian.leap Y)) /\
  IsLeapYear (2000 - 1900) = true /\
  IsLeapYear (1900 - 1900) = false /\
  IsLeapYear (2004 - 1900) = true /\
  IsLeapYear (2001 - 1900) = false.
Proof.
  split; [| repeat split; reflexivity].
  intros Y _. rewrite IsLeapYear_leap. unfold kTMYearBase.
  replace (Y - 1900 + 1900) with Y by lia. reflexivity.
Qed.

Lemma IsLeapYear_Gregorian_rule_witness :
  IsLeapYear (1600 - 1900) = true <-> Gregorian.leap 1600.
Proof. apply (proj1 IsLeapYear_Gregorian_rule 1600). lia. Defined.

(** C1. For every integer y (years since 1970), [NumLeapDays y] is the count
    of leap days between 1970 and 1970 + y: for y >= 0 the number of
    Gregorian leap years Y with 1970 <= Y < 1970 + y, for y < 0 the negation
    of the number of Gregorian leap years Y with 1970 + y <= Y < 1970;
    equivalently [NumLeapDays y] is
    floor((1969+y)/4) - floor((1969+y)/100) + floor((1969+y)/400) - 477. *)
Theorem NumLeapDays_counts_leap_days (y : Z) :
  (0 <= y -> NumLeapDays y = Gregorian.leap_years 1970 (1970 + y)) /\
  (y < 0 -> NumLeapDays y = - Gregorian.leap_years (1970 + y) 1970) /\
  NumLeapDays y =
    (1969 + y) / 4 - (1969 + y) / 100 + (1969 + y) / 400 - 477.
Proof.
  rewrite NumLeapDays_floor. repeat split.
  - intro Hy. rewrite leap_years_upto_diff by lia.
    replace (1970 + y - 1) with (1969 + y) by lia. reflexivity.
  - intro Hy. rewrite leap_years_upto_diff by lia.
    replace (1970 + y - 1) with (1969 + y) by lia.
    change (1970 - 1) with 1969. lia.
Qed.

Lemma NumLeapDays_counts_leap_days_witness :
  NumLeapDays 30 = Gregorian.leap_years 1970 2000 /\
  NumLeapDays (-70) = - Gregorian.leap_years 1900 1970.
Proof.
  split.
  - apply (proj1 (NumLeapDays_counts_leap_days 30)). lia.
  - apply (proj1 (proj2 (NumLeapDays_counts_leap_days (-70)))). lia.
Defined.

End LeapYearRules.

(** ** Calendar conversion: proofs *)
Section CalendarConverter.
Import Calendar.

Lemma In_interval (from to x : Z) : from <= x < to -> In x (interval from to).
Proof.
  intro Hx. unfold interval. apply in_map_iff.
  exists (Z.to_nat (x - from)). split; [lia |].
  apply in_seq. lia.
Qed.

Lemma index_months (leap_year : bool) (mon : Z) :
  0 <= mon <= 11 ->
  exists d, index (if leap_year then kDaysUptoMonthLeapYear else kDaysUptoMonth)
              mon = Some d /\ 0 <= d <= 335.
Proof.
  intro Hmon.
  assert (Hcases : mon = 0 \/ mon = 1 \/ mon = 2 \/ mon = 3 \/ mon = 4 \/
                   mon = 5 \/ mon = 6 \/ mon = 7 \/ mon = 8 \/ mon = 9 \/
                   mon = 10 \/ mon = 11) by lia.
  destruct leap_year;
    repeat (destruct Hcases as [-> | Hcases]); try subst mon;
    eexists; (split; [reflexivity | cbv; split; discriminate]).
Qed.

Lemma index_outside (table : list Z) (mon : Z) :
  mon < 0 \/ Z.of_nat (List.length table) <= mon -> index table mon = None.
Proof.
  intros [Hneg | Hbig]; unfold index.
  - destruct (Z.ltb_spec mon 0); [reflexivity | lia].
  - destruct (Z.ltb_spec mon 0); [reflexivity |].
    apply nth_error_None. lia.
Qed.

Lemma is_int_range (v : Z) : is_int v = true <-> int_range v.
Proof.
  unfold is_int, int_range.
  rewrite andb_true_iff, Z.leb_le, Z.ltb_lt. reflexivity.
Qed.

Lemma int_sub_in_range (a b : Z) :
  int_range (a - b) -> int_sub a b = Some (a - b).
Proof.
  intro Hr. unfold int_sub. apply is_int_range in Hr. rewrite Hr. reflexivity.
Qed.

Lemma int_sub_defined (a b v : Z) :
  int_sub a b = Some v -> v = a - b /\ int_range (a - b).
Proof.
  unfold int_sub. destruct (is_int (a - b)) eqn:Hr; [| discriminate].
  intro Hv. injection Hv as <-. split; [reflexivity |].
  apply is_int_range. exact Hr.
Qed.

(** The sum [timegmCustom] computes, once the month table is read and the
    day of the month decremented. *)
Lemma timegmCustom_sum (t : tm) (d : Z) :
  index (if IsLeapYear (tm_year t) then kDaysUptoMonthLeapYear
         else kDaysUptoMonth) (tm_mon t) = Some d ->
  int_range (tm_mday t - 1) ->
  timegmCustom t =
  Some (((tm_year t - 70) * 365 + NumLeapDays (tm_year t - 70) + d +
         (tm_mday t - 1)) * 86400 +
        (tm_hour t * 3600 + tm_min t * 60 + tm_sec t)).
Proof.
  intros Hd Hday. unfold timegmCustom.
  replace (tm_year t + kTMYearBase - kEpochYearBase) with (tm_year t - 70)
    by (unfold kTMYearBase, kEpochYearBase; lia).
  rewrite (int_sub_in_range _ _ Hday).
  destruct (IsLeapYear (tm_year t)); rewrite Hd; cbn [option_map];
    change kSecondsInYear with 31536000; change kSecondsInDay with 86400;
    change kSecondsInHour with 3600; change kSecondsInMinute with 60;
    f_equal; lia.
Qed.

Lemma small_day_in_int (D : Z) : -1000 <= D <= 1000 -> int_range (D - 1).
Proof. unfold int_range. change (2 ^ 31) with 2147483648. lia. Qed.

(** [timegmCustom] has a value exactly on the months of the tables and the
    days of the month that can be decremented. *)
Lemma timegmCustom_defined (t : tm) :
  0 <= tm_mon t <= 11 /\ int_range (tm_mday t - 1) <->
  exists time, timegmCustom t = Some time.
Proof.
  split.
  - intros [Hmon Hday].
    destruct (index_months (IsLeapYear (tm_year t)) (tm_mon t) Hmon)
      as [d [Hd _]].
    rewrite (timegmCustom_sum t d Hd Hday). eauto.
  - intros [time Htime]. split.
    + destruct (Z_lt_le_dec (tm_mon t) 0) as [Hneg | Hpos];
        [| destruct (Z_le_gt_dec (tm_mon t) 11) as [Hle | Hgt]; [lia |]];
        exfalso; unfold timegmCustom in Htime;
        destruct (IsLeapYear (tm_year t));
        rewrite index_outside in Htime by (cbn; lia); discriminate.
    + unfold timegmCustom in Htime.
      destruct (int_sub (tm_mday t) 1) as [days |] eqn:Hsub.
      * exact (proj2 (int_sub_defined _ _ _ Hsub)).
      * destruct (if IsLeapYear (tm_year t) then _ else _); discriminate.
Qed.

Lemma NumLeapDays_bound (y : Z) :
  - 2 ^ 32 <= y <= 2 ^ 32 -> - 2 ^ 32 <= NumLeapDays y <= 2 ^ 32.
Proof.
  intro Hy. rewrite NumLeapDays_floor. unfold Gregorian.leap_years_upto.
  change (1969 / 4 - 1969 / 100 + 1969 / 400) with 477.
  change (2 ^ 32) with 4294967296 in *.
  Z.to_euclidean_division_equations; lia.
Qed.

(** On [int] members and a month of the tables, every intermediate of the
    sum, in the order the code forms them, stays inside a 64-bit [time_t]:
    the arithmetic never wraps. *)
Lemma timegmCustom_no_overflow (t : tm) (d : Z) :
  int_range (tm_year t) -> int_range (tm_mday t) -> int_range (tm_mday t - 1) ->
  int_range (tm_hour t) -> int_range (tm_min t) -> int_range (tm_sec t) ->
  index (if IsLeapYear (tm_year t) then kDaysUptoMonthLeapYear
         else kDaysUptoMonth) (tm_mon t) = Some d ->
  let years := tm_year t + kTMYearBase - kEpochYearBase in
  let base := years * kSecondsInYear + NumLeapDays years * kSecondsInDay in
  let clock :=
    (tm_mday t - 1) * kSecondsInDay + tm_hour t * kSecondsInHour +
    tm_min t * kSecondsInMinute + tm_sec t in
  Forall time_t_range
    [ years; years * kSecondsInYear; NumLeapDays years;
      NumLeapDays years * kSecondsInDay; base;
      d * kSecondsInDay; base + d * kSecondsInDay;
      (tm_mday t - 1) * kSecondsInDay; tm_hour t * kSecondsInHour;
      (tm_mday t - 1) * kSecondsInDay + tm_hour t * kSecondsInHour;
      tm_min t * kSecondsInMinute;
      (tm_mday t - 1) * kSecondsInDay + tm_hour t * kSecondsInHour +
      tm_min t * kSecondsInMinute;
      clock; base + d * kSecondsInDay + clock ] /\
  timegmCustom t = Some (base + d * kSecondsInDay + clock).
Proof.
  unfold int_range, time_t_range.
  change (2 ^ 31) with 2147483648. change (2 ^ 63) with 9223372036854775808.
  intros Hy Hd Hd1 Hh Hm Hs Hidx. cbv zeta.
  assert (Hdr : 0 <= d <= 335).
  { destruct (Z_lt_le_dec (tm_mon t) 0) as [Hneg | Hpos].
    - rewrite index_outside in Hidx by (left; exact Hneg). discriminate.
    - destruct (Z_le_gt_dec (tm_mon t) 11) as [Hle | Hgt].
      + destruct (index_months (IsLeapYear (tm_year t)) (tm_mon t)
                    (conj Hpos Hle)) as [d' [Hidx' Hd']].
        rewrite Hidx in Hidx'. injection Hidx' as <-. exact Hd'.
      + rewrite index_outside in Hidx
          by (right; destruct (IsLeapYear (tm_year t)); cbn; lia).
        discriminate. }
  split.
  - set (years := tm_year t + kTMYearBase - kEpochYearBase).
    assert (Hyr : -2147483648 - 70 <= years <= 2147483648 + 1830)
      by (subst years; unfold kTMYearBase, kEpochYearBase; lia).
    assert (Hleap : - 2 ^ 32 <= NumLeapDays years <= 2 ^ 32)
      by (apply NumLeapDays_bound; change (2 ^ 32) with 4294967296; lia).
    change (2 ^ 32) with 4294967296 in Hleap.
    clearbody years.
    change kSecondsInYear with 31536000. change kSecondsInDay with 86400.
    change kSecondsInHour with 3600. change kSecondsInMinute with 60.
    repeat (apply Forall_cons; [lia |]). apply Forall_nil.
  - rewrite (timegmCustom_sum t d Hidx Hd1).
    unfold kTMYearBase, kEpochYearBase.
    replace (tm_year t + 1900 - 1970) with (tm_year t - 70) by lia.
    change kSecondsInYear with 31536000. change kSecondsInDay with 86400.
    change kSecondsInHour with 3600. change kSecondsInMinute with 60.
    f_equal. lia.
Qed.

(** C2. [civilToEpoch] ([timegmCustom]) applied to 1969-12-31 23:59:59
    returns -1, applied to 1970-01-01 00:00:00 returns 0, and for any fixed
    hour, minute and second its result for 2000-03-01 minus its result for
    2000-02-29 is 86400. *)
Theorem civilToEpoch_boundary_values :
  Civil.civilToEpoch (mk_civil 1969 12 31 23 59 59) = Some (-1) /\
  Civil.civilToEpoch (mk_civil 1970 1 1 0 0 0) = Some 0 /\
  forall h mi s : Z, exists march1 feb29 : Z,
    Civil.civilToEpoch (mk_civil 2000 3 1 h mi s) = Some march1 /\
    Civil.civilToEpoch (mk_civil 2000 2 29 h mi s) = Some feb29 /\
    march1 - feb29 = 86400.
Proof.
  split; [reflexivity | split; [reflexivity |]].
  intros h mi s. unfold Civil.civilToEpoch.
  rewrite (timegmCustom_sum (Civil.to_tm (mk_civil 2000 3 1 h mi s)) 60)
    by (try reflexivity; apply small_day_in_int; cbn; lia).
  rewrite (timegmCustom_sum (Civil.to_tm (mk_civil 2000 2 29 h mi s)) 31)
    by (try reflexivity; apply small_day_in_int; cbn; lia).
  do 2 eexists. split; [reflexivity | split; [reflexivity |]].
  cbn [Civil.to_tm tm_year tm_mday tm_hour tm_min tm_sec
       year month day hour minute second].
  change (NumLeapDays (2000 - 1900 - 70)) with 7. lia.
Qed.

End CalendarConverter.

(** ** Round trip through the inverse breakdown *)
Section RoundTripProofs.
Import Calendar.

Lemma forallb_interval (f : Z -> bool) (from to : Z) :
  forallb f (interval from to) = true ->
  forall x : Z, from <= x < to -> f x = true.
Proof.
  intros Hall x Hx. rewrite forallb_forall in Hall.
  apply Hall, In_interval, Hx.
Qed.

Lemma years_1901_2100 :
  forallb RoundTrip.year_round_trips (interval 1901 2101) = true.
Proof. vm_cast_no_check (eq_refl true). Qed.

(** The seconds of a day split back into hour, minute and second. *)
Lemma time_of_day_split (K h mi s : Z) :
  0 <= h <= 23 -> 0 <= mi <= 59 -> 0 <= s <= 59 ->
  let time := K * 86400 + (h * 3600 + mi * 60 + s) in
  time / 86400 = K /\
  (time mod 86400) / 3600 = h /\
  ((time mod 86400) / 60) mod 60 = mi /\
  (time mod 86400) mod 60 = s.
Proof.
  intros Hh Hmi Hs time.
  assert (Hday : time / 86400 = K)
    by (subst time; Z.to_euclidean_division_equations; lia).
  assert (Hrem : time mod 86400 = h * 3600 + mi * 60 + s)
    by (subst time; Z.to_euclidean_division_equations; lia).
  rewrite Hrem. repeat split; try assumption;
    Z.to_euclidean_division_equations; lia.
Qed.

(** C3. For every civil time t with year in [1901, 2100], month in [1, 12],
    day valid for that month and year, hour in [0, 23], minute and second in
    [0, 59], the inverse civil-calendar breakdown applied to
    [civilToEpoch t] ([timegmCustom]) yields t again. *)
Theorem epochToCivil_civilToEpoch (t : CivilTime) :
  1901 <= year t <= 2100 -> Civil.valid t ->
  exists time : Z,
    Civil.civilToEpoch t = Some time /\
    Collaborators.epochToCivil time = Some t.
Proof.
  intros HY (HM & HD & Hh & Hmi & Hs).
  destruct t as [Y M D h mi s]; cbn [year month day hour minute second] in *.
  pose proof (forallb_interval _ _ _ years_1901_2100 Y ltac:(lia)) as Hyear.
  pose proof (forallb_interval _ _ _ Hyear M ltac:(lia)) as Hmonth.
  unfold RoundTrip.month_round_trips, RoundTrip.month_start,
    Civil.civilToEpoch in *.
  destruct (index_months (IsLeapYear (Y - 1900)) (M - 1) ltac:(lia))
    as [d [Hidx _]].
  pose proof (small_day_in_int 1 ltac:(lia)) as Hfirst.
  assert (Hdecr : int_range (D - 1)).
  { apply small_day_in_int. unfold Civil.days_in_month in HD.
    destruct (M =? 2)%Z; [destruct (Gregorian.leapb Y); lia |].
    destruct ((M =? 4)%Z || (M =? 6)%Z || (M =? 9)%Z || (M =? 11)%Z); lia. }
  rewrite (timegmCustom_sum (Civil.to_tm (mk_civil Y M 1 0 0 0)) d Hidx Hfirst)
    in Hmonth.
  rewrite (timegmCustom_sum (Civil.to_tm (mk_civil Y M D h mi s)) d Hidx Hdecr).
  cbn [Civil.to_tm tm_year tm_mon tm_mday tm_hour tm_min tm_sec option_map
       year month day hour minute second] in *.
  set (base := (Y - 1900 - 70) * 365 + NumLeapDays (Y - 1900 - 70) + d) in *.
  destruct (time_of_day_split (base + (1 - 1)) 0 0 0
              ltac:(lia) ltac:(lia) ltac:(lia)) as [Hmidnight _].
  rewrite Hmidnight in Hmonth.
  pose proof (forallb_interval _ _ _ Hmonth D ltac:(lia)) as Hdate.
  cbv beta in Hdate.
  replace (base + (1 - 1) + (D - 1)) with (base + (D - 1)) in Hdate by lia.
  destruct (time_of_day_split (base + (D - 1)) h mi s Hh Hmi Hs)
    as (Hday & Hhour & Hmin & Hsec).
  eexists. split; [reflexivity |].
  unfold Collaborators.epochToCivil, Collaborators.getGmtime.
  rewrite Hday, Hhour, Hmin, Hsec.
  destruct (Collaborators.civil_from_days (base + (D - 1))) as [[y m] dd].
  unfold RoundTrip.date_eqb in Hdate.
  apply andb_true_iff in Hdate. destruct Hdate as [Hdate HdD].
  apply andb_true_iff in Hdate. destruct Hdate as [HyY HmM].
  apply Z.eqb_eq in HyY, HmM, HdD. subst y m dd.
  unfold Civil.of_tm.
  cbn [option_map tm_year tm_mon tm_mday tm_hour tm_min tm_sec].
  apply f_equal. f_equal; lia.
Qed.

Lemma epochToCivil_civilToEpoch_witness :
  exists time : Z,
    Civil.civilToEpoch (mk_civil 2018 1 2 3 4 5) = Some time /\
    Collaborators.epochToCivil time = Some (mk_civil 2018 1 2 3 4 5).
Proof.
  apply (epochToCivil_civilToEpoch (mk_civil 2018 1 2 3 4 5)).
  - simpl. lia.
  - unfold Civil.valid. cbn [year month day hour minute second].
    change (Civil.days_in_month 2018 1) with 31. lia.
Defined.

End RoundTripProofs.

(** ** The parser: proofs *)
Section Iso8601Parser.
Import Calendar Layout TimeUtils Notions.
Local Open Scope string_scope.

Variable stringToInt : string -> option Z.

Lemma layout_offsets :
  ENCODED_TIME_STRING_YEAR_OFFSET = 0%nat /\
  ENCODED_TIME_STRING_MONTH_OFFSET = 5%nat /\
  ENCODED_TIME_STRING_DAY_OFFSET = 8%nat /\
  ENCODED_TIME_STRING_HOUR_OFFSET = 11%nat /\
  ENCODED_TIME_STRING_MINUTE_OFFSET = 14%nat /\
  ENCODED_TIME_STRING_SECOND_OFFSET = 17%nat /\
  ENCODED_TIME_STRING_EXPECTED_LENGTH = 24%nat.
Proof. repeat split. Qed.

(** With a non-null output pointer, a string of the expected length and six
    fields that convert, the call is [convertToUtcTimeT] on the adjusted
    fields: it stores what [timegmCustom] computes, and has no defined
    behaviour where [timegmCustom] has none. *)
Lemma convert8601_extracted (s : string) (c : CivilTime) :
  String.length s = ENCODED_TIME_STRING_EXPECTED_LENGTH ->
  extracted stringToInt s = Some c ->
  convert8601TimeStringToUnix stringToInt s address =
  match Civil.civilToEpoch c with
  | Some time => Returns true (Some time) []
  | None => Undefined
  end.
Proof.
  intros Hlen Hfields.
  unfold convert8601TimeStringToUnix, extracted in *.
  rewrite Hlen, Nat.eqb_refl. cbn [negb].
  destruct (stringToInt (substr s ENCODED_TIME_STRING_YEAR_OFFSET _))
    as [y |]; [| discriminate].
  destruct (stringToInt (substr s ENCODED_TIME_STRING_MONTH_OFFSET _))
    as [mo |]; [| discriminate].
  destruct (stringToInt (substr s ENCODED_TIME_STRING_DAY_OFFSET _))
    as [d |]; [| discriminate].
  destruct (stringToInt (substr s ENCODED_TIME_STRING_HOUR_OFFSET _))
    as [h |]; [| discriminate].
  destruct (stringToInt (substr s ENCODED_TIME_STRING_MINUTE_OFFSET _))
    as [mi |]; [| discriminate].
  destruct (stringToInt (substr s ENCODED_TIME_STRING_SECOND_OFFSET _))
    as [se |]; [| discriminate].
  injection Hfields as <-.
  unfold convertToUtcTimeT, Civil.civilToEpoch, Civil.to_tm.
  cbn [year month day hour minute second].
  destruct (timegmCustom _); reflexivity.
Qed.

(** On the months of the tables, and for a day field that [tm_mday - 1] can
    take (every [int] but [INT_MIN]), the call succeeds with the value of
    [civilToEpoch]; the fields are not range-checked otherwise. *)
Lemma convert8601_civilToEpoch (s : string) (c : CivilTime) :
  String.length s = ENCODED_TIME_STRING_EXPECTED_LENGTH ->
  extracted stringToInt s = Some c ->
  1 <= month c <= 12 ->
  int_range (day c - 1) ->
  exists time : Z,
    Civil.civilToEpoch c = Some time /\
    convert8601TimeStringToUnix stringToInt s address =
    Returns true (Some time) [].
Proof.
  intros Hlen Hfields Hmonth Hday.
  rewrite (convert8601_extracted s c Hlen Hfields).
  destruct (proj1 (timegmCustom_defined (Civil.to_tm c))) as [time Htime].
  { destruct c; cbn in *. split; [lia | exact Hday]. }
  unfold Civil.civilToEpoch. rewrite Htime. eauto.
Qed.

Lemma convert8601_wrong_length (s : string) :
  String.length s <> ENCODED_TIME_STRING_EXPECTED_LENGTH ->
  convert8601TimeStringToUnix stringToInt s address =
  Returns false None
    [LX_d "convert8601TimeStringToUnixFailed" "unexpected time string length:"
          (String.length s)].
Proof.
  intro Hlen. unfold convert8601TimeStringToUnix.
  apply Nat.eqb_neq in Hlen. rewrite Hlen. reflexivity.
Qed.

Lemma substring_agree (s1 s2 : string) (n m : nat) :
  (forall i : nat, In i (seq n m) -> get i s1 = get i s2) ->
  substr s1 n m = substr s2 n m.
Proof.
  intro Hagree. unfold substr. apply get_correct. intro p.
  destruct (Nat.lt_ge_cases p m) as [Hlt | Hge].
  - rewrite !substring_correct1 by assumption.
    apply Hagree, in_seq. lia.
  - rewrite !substring_correct2 by assumption. reflexivity.
Qed.

Lemma convert8601_same_fields (s1 s2 : string) (p : pointer) :
  String.length s1 = String.length s2 ->
  (forall i : nat, In i digit_positions -> get i s1 = get i s2) ->
  outcome (convert8601TimeStringToUnix stringToInt s1 p) =
  outcome (convert8601TimeStringToUnix stringToInt s2 p).
Proof.
  intros Hlen Hagree. unfold digit_positions in Hagree.
  assert (Hy : substr s1 ENCODED_TIME_STRING_YEAR_OFFSET
                 ENCODED_TIME_STRING_YEAR_STRING_LENGTH =
               substr s2 ENCODED_TIME_STRING_YEAR_OFFSET
                 ENCODED_TIME_STRING_YEAR_STRING_LENGTH)
    by (apply substring_agree; intros i Hi; apply Hagree;
        repeat (apply in_or_app; first [left; exact Hi | right]); exact Hi).
  assert (Hmo : substr s1 ENCODED_TIME_STRING_MONTH_OFFSET
                  ENCODED_TIME_STRING_MONTH_STRING_LENGTH =
                substr s2 ENCODED_TIME_STRING_MONTH_OFFSET
                  ENCODED_TIME_STRING_MONTH_STRING_LENGTH)
    by (apply substring_agree; intros i Hi; apply Hagree;
        repeat (apply in_or_app; first [left; exact Hi | right]); exact Hi).
  assert (Hd : substr s1 ENCODED_TIME_STRING_DAY_OFFSET
                 ENCODED_TIME_STRING_DAY_STRING_LENGTH =
               substr s2 ENCODED_TIME_STRING_DAY_OFFSET
                 ENCODED_TIME_STRING_DAY_STRING_LENGTH)
    by (apply substring_agree; intros i Hi; apply Hagree;
        repeat (apply in_or_app; first [left; exact Hi | right]); exact Hi).
  assert (Hh : substr s1 ENCODED_TIME_STRING_HOUR_OFFSET
                 ENCODED_TIME_STRING_HOUR_STRING_LENGTH =
               substr s2 ENCODED_TIME_STRING_HOUR_OFFSET
                 ENCODED_TIME_STRING_HOUR_STRING_LENGTH)
    by (apply substring_agree; intros i Hi; apply Hagree;
        repeat (apply in_or_app; first [left; exact Hi | right]); exact Hi).
  assert (Hmi : substr s1 ENCODED_TIME_STRING_MINUTE_OFFSET
                  ENCODED_TIME_STRING_MINUTE_STRING_LENGTH =
                substr s2 ENCODED_TIME_STRING_MINUTE_OFFSET
                  ENCODED_TIME_STRING_MINUTE_STRING_LENGTH)
    by (apply substring_agree; intros i Hi; apply Hagree;
        repeat (apply in_or_app; first [left; exact Hi | right]); exact Hi).
  assert (Hse : substr s1 ENCODED_TIME_STRING_SECOND_OFFSET
                  ENCODED_TIME_STRING_SECOND_STRING_LENGTH =
                substr s2 ENCODED_TIME_STRING_SECOND_OFFSET
                  ENCODED_TIME_STRING_SECOND_STRING_LENGTH)
    by (apply substring_agree; intros i Hi; apply Hagree;
        repeat (apply in_or_app; first [left; exact Hi | right]); exact Hi).
  unfold convert8601TimeStringToUnix.
  destruct p; [reflexivity |].
  rewrite Hlen, Hy, Hmo, Hd, Hh, Hmi, Hse.
  destruct (negb _); [reflexivity |].
  repeat match goal with
         | |- context [match stringToInt ?x with _ => _ end] =>
             destruct (stringToInt x); [| reflexivity]
         end.
  reflexivity.
Qed.

End Iso8601Parser.

(** ** The formatter: proofs *)
Section Iso8601Formatter.
Import TimeUtils Notions.
Local Open Scope string_scope.

Lemma remainders_padded :
  forallb padded_as_three_digits (interval 0 1000) = true.
Proof. vm_compute. reflexivity. Qed.

Lemma negative_remainders_off_profile :
  forallb negative_field_off_profile (interval (-999) 0) = true.
Proof. vm_compute. reflexivity. Qed.

(** The stream manipulators pad a remainder in [0, 999] to three digits. *)
Lemma setfill_setw_three_digits (v : Z) :
  0 <= v < 1000 -> setfill_setw "0" 3 v = Collaborators.three_digits v.
Proof.
  intro Hv. apply String.eqb_eq.
  exact (forallb_interval _ _ _ remainders_padded v Hv).
Qed.

Lemma list_ascii_of_string_app (a b : string) :
  list_ascii_of_string (a ++ b) =
  (list_ascii_of_string a ++ list_ascii_of_string b)%list.
Proof. induction a as [| c a IH]; cbn; [| rewrite IH]; reflexivity. Qed.

Lemma fraction_reversed_app (tail front : list ascii) :
  (5 <= List.length tail)%nat ->
  Collaborators.fraction_reversed (tail ++ front)%list =
  Collaborators.fraction_reversed tail.
Proof.
  intro Hlen.
  do 5 (destruct tail as [| ? tail]; [cbn in Hlen; lia |]).
  reflexivity.
Qed.

(** A negative remainder is streamed with its minus sign: whatever precedes
    it, the result does not end in a dot, three digits and [Z]. *)
Lemma negative_field (buf : string) (v : Z) :
  -1000 < v < 0 ->
  Collaborators.ends_with_millis (buf ++ "." ++ setfill_setw "0" 3 v ++ "Z")
  = false /\
  setfill_setw "0" 3 v <> Collaborators.three_digits (v mod 1000).
Proof.
  intro Hv.
  pose proof (forallb_interval _ _ _ negative_remainders_off_profile v
                ltac:(lia)) as Hcheck.
  unfold negative_field_off_profile in Hcheck.
  apply andb_true_iff in Hcheck. destruct Hcheck as [Hcheck Hneq].
  apply andb_true_iff in Hcheck. destruct Hcheck as [Hlen Hoff].
  apply Nat.leb_le in Hlen.
  apply negb_true_iff in Hoff, Hneq. apply String.eqb_neq in Hneq.
  split; [| exact Hneq].
  unfold Collaborators.ends_with_millis.
  rewrite list_ascii_of_string_app, rev_app_distr.
  rewrite fraction_reversed_app by exact Hlen. exact Hoff.
Qed.

Variable getGmtime : Z -> option tm.
Variable strftime : nat -> string -> tm -> string.
Variable ticks_per_ms : Z.
Hypothesis ticks_per_ms_pos : 0 < ticks_per_ms.

Lemma milliseconds_whole (m : Z) :
  milliseconds ticks_per_ms (m * ticks_per_ms) = m.
Proof. unfold milliseconds. apply Z.quot_mul. lia. Qed.

Lemma milliseconds_sign (tp : Z) :
  (0 <= tp -> 0 <= milliseconds ticks_per_ms tp) /\
  (tp < 0 -> milliseconds ticks_per_ms tp <= 0).
Proof.
  unfold milliseconds. split; intro Htp.
  - apply Z.quot_pos; lia.
  - pose proof (Z.quot_opp_l tp ticks_per_ms ltac:(lia)) as Hopp.
    pose proof (Z.quot_pos (- tp) ticks_per_ms ltac:(lia) ltac:(lia)). lia.
Qed.

(** The string stored when the breakdown is available and rendering
    succeeds: the rendered prefix, a dot, the streamed remainder and [Z]. *)
Lemma convertTime_success (tp : Z) (utcTm : tm) :
  getGmtime (seconds (milliseconds ticks_per_ms tp)) = Some utcTm ->
  strftime 28 format utcTm <> "" ->
  convertTimeToUtcIso8601Rfc3339 getGmtime strftime ticks_per_ms tp address =
  Returns true
    (Some (strftime 28 format utcTm ++ "." ++
           millisecondField (milliseconds ticks_per_ms tp) ++ "Z")) [].
Proof.
  intros Hgm Hbuf. unfold convertTimeToUtcIso8601Rfc3339.
  cbv zeta. rewrite Hgm.
  change (29 - 1)%nat with 28%nat. fold format.
  destruct (strftime 28%nat format utcTm) as [| c rest] eqn:Hs;
    [contradiction | reflexivity].
Qed.

Lemma millisecondField_nonnegative (ms : Z) :
  0 <= ms -> millisecondField ms = Collaborators.three_digits (ms mod 1000).
Proof.
  intro Hms. unfold millisecondField.
  rewrite Z.rem_mod_nonneg by lia.
  apply setfill_setw_three_digits, Z.mod_pos_bound. lia.
Qed.

Lemma seconds_nonnegative (ms : Z) : 0 <= ms -> seconds ms = ms / 1000.
Proof. intro Hms. unfold seconds. apply Z.quot_div_nonneg; lia. Qed.

End Iso8601Formatter.

(** ** The parser: statements about [convert8601TimeStringToUnix] *)
Section ParserStatements.
Import Calendar Layout TimeUtils Notions.
Local Open Scope string_scope.

Lemma digits_value_bound (s : string) (acc v : Z) :
  Collaborators.digits_value acc s = Some v ->
  acc * 10 ^ Z.of_nat (String.length s) <= v <
  (acc + 1) * 10 ^ Z.of_nat (String.length s).
Proof.
  revert acc. induction s as [| c rest IH]; intros acc Hv.
  - cbn in Hv. injection Hv as <-. cbn. lia.
  - cbn [Collaborators.digits_value] in Hv.
    destruct (Collaborators.is_digit c) eqn:Hc; [| discriminate].
    apply IH in Hv.
    unfold Collaborators.is_digit in Hc.
    apply andb_true_iff in Hc. destruct Hc as [Hlo Hhi].
    apply Nat.leb_le in Hlo, Hhi.
    cbn [String.length]. rewrite Nat2Z.inj_succ, Z.pow_succ_r by lia.
    set (k := 10 ^ Z.of_nat (String.length rest)) in *.
    assert (0 < k) by (apply Z.pow_pos_nonneg; lia).
    nia.
Qed.

(** The modelled [stringToInt] reads a field of n characters as a value in
    [0, 10^n): at most 9999 for the year, 99 for the others, so the [int]
    adjustments [tm_year -= 1900] and [tm_mon -= 1] cannot wrap. *)
Lemma stringToInt_bound (s : string) (v : Z) :
  Collaborators.stringToInt s = Some v ->
  0 <= v < 10 ^ Z.of_nat (String.length s).
Proof.
  intro Hv. destruct s as [| c rest]; [discriminate |].
  apply digits_value_bound in Hv. lia.
Qed.

(** Whatever [stringToInt] is, a month field outside 1..12 makes
    [timegmCustom] read past the month table. *)
Lemma convert8601_month_outside
    (stringToInt : string -> option Z) (s : string) (c : CivilTime) :
  String.length s = ENCODED_TIME_STRING_EXPECTED_LENGTH ->
  extracted stringToInt s = Some c ->
  ~ 1 <= month c <= 12 ->
  convert8601TimeStringToUnix stringToInt s address = Undefined.
Proof.
  intros Hlen Hfields Hmonth.
  rewrite (convert8601_extracted stringToInt s c Hlen Hfields).
  destruct (Civil.civilToEpoch c) as [time |] eqn:Htime; [| reflexivity].
  exfalso. apply Hmonth.
  pose proof (proj1 (proj2 (timegmCustom_defined (Civil.to_tm c))
                       (ex_intro _ time Htime))) as Hmon.
  destruct c; cbn in *; lia.
Qed.

(** The well-formed input of the specification is accepted, with the value
    of [civilToEpoch] on (2018, 1, 2, 3, 4, 5). *)
Lemma convert8601_accepts_well_formed :
  Civil.civilToEpoch (mk_civil 2018 1 2 3 4 5) = Some 1514862245 /\
  convert8601TimeStringToUnix Collaborators.stringToInt
    "2018-01-02T03:04:05+0000" address = Returns true (Some 1514862245) [].
Proof. split; reflexivity. Qed.

(** C5, at the input where the code departs from it.  The string
    "2018-13-02T03:04:05+0000" has length 24 and its six fields convert, to
    (2018, 13, 2, 3, 4, 5); [timegmCustom] then reads entry 12 of the
    twelve-entry month table, so the call has no defined result instead of
    succeeding with an epoch value. *)
Theorem convert8601_month_13_undefined :
  String.length "2018-13-02T03:04:05+0000" = ENCODED_TIME_STRING_EXPECTED_LENGTH /\
  extracted Collaborators.stringToInt "2018-13-02T03:04:05+0000" =
    Some (mk_civil 2018 13 2 3 4 5) /\
  index kDaysUptoMonth (13 - 1) = None /\
  Civil.civilToEpoch (mk_civil 2018 13 2 3 4 5) = None /\
  convert8601TimeStringToUnix Collaborators.stringToInt
    "2018-13-02T03:04:05+0000" address = Undefined.
Proof. repeat split. Qed.

(** C6, as stated, fails twice: the expected length is not the sum with five
    separators (there are six), and with a null output pointer a string of a
    wrong length is refused for the pointer, not for its length. *)
Lemma wrong_length_not_always_length_error :
  (ENCODED_TIME_STRING_EXPECTED_LENGTH <> (4 + 2 + 2 + 2 + 2 + 2) + 4 + 5)%nat /\
  String.length "2018-01-01T00:00:00+000" <> ENCODED_TIME_STRING_EXPECTED_LENGTH /\
  convert8601TimeStringToUnix Collaborators.stringToInt
    "2018-01-01T00:00:00+000" nullptr =
  Returns false None
    [LX_m "convert8601TimeStringToUnixFailed"
          "convertedTime parameter was nullptr."].
Proof. repeat split; discriminate. Qed.

(** C6 (amended). The expected length is 24, the sum of the field widths
    4+2+2+2+2+2, the postfix width 4 and the six one-character separators.
    With a non-null output pointer, every input string whose length is not
    24 fails with the length error, whatever [stringToInt] would answer: no
    field is extracted.  In particular "2018-01-01T00:00:00+000" fails with
    the length error. *)
Theorem wrong_length_rejected :
  (ENCODED_TIME_STRING_EXPECTED_LENGTH = (4 + 2 + 2 + 2 + 2 + 2) + 4 + 6)%nat /\
  ENCODED_TIME_STRING_EXPECTED_LENGTH = 24%nat /\
  (forall (stringToInt : string -> option Z) (s : string),
     String.length s <> ENCODED_TIME_STRING_EXPECTED_LENGTH ->
     convert8601TimeStringToUnix stringToInt s address =
     Returns false None
       [LX_d "convert8601TimeStringToUnixFailed"
             "unexpected time string length:" (String.length s)]) /\
  (forall (stringToInt stringToInt' : string -> option Z) (s : string),
     String.length s <> ENCODED_TIME_STRING_EXPECTED_LENGTH ->
     convert8601TimeStringToUnix stringToInt s address =
     convert8601TimeStringToUnix stringToInt' s address) /\
  convert8601TimeStringToUnix Collaborators.stringToInt
    "2018-01-01T00:00:00+000" address =
  Returns false None
    [LX_d "convert8601TimeStringToUnixFailed"
          "unexpected time string length:" 23].
Proof.
  split; [reflexivity | split; [reflexivity |]].
  split; [exact convert8601_wrong_length |].
  split; [| reflexivity].
  intros f g s Hlen. rewrite !convert8601_wrong_length by exact Hlen.
  reflexivity.
Qed.

Lemma wrong_length_rejected_witness :
  convert8601TimeStringToUnix (fun _ => Some 0) "2018" address =
  Returns false None
    [LX_d "convert8601TimeStringToUnixFailed"
          "unexpected time string length:" 4].
Proof.
  apply (proj1 (proj2 (proj2 wrong_length_rejected)) (fun _ => Some 0) "2018").
  simpl. discriminate.
Defined.

Lemma digit_positions_list :
  digit_positions = [0; 1; 2; 3; 5; 6; 8; 9; 11; 12; 14; 15; 17; 18]%nat.
Proof. reflexivity. Qed.

(** C9. Two input strings of length 24 that agree byte for byte on the six
    digit-field ranges (offsets 0-3, 5-6, 8-9, 11-12, 14-15, 17-18) get the
    same success or failure and, on success, the same epoch value: the
    separator positions and the four postfix bytes are never examined. *)
Theorem separators_and_postfix_ignored
    (stringToInt : string -> option Z) (s1 s2 : string) (p : pointer) :
  String.length s1 = 24%nat -> String.length s2 = 24%nat ->
  (forall i : nat, In i digit_positions -> get i s1 = get i s2) ->
  outcome (convert8601TimeStringToUnix stringToInt s1 p) =
  outcome (convert8601TimeStringToUnix stringToInt s2 p).
Proof.
  intros H1 H2 Hagree.
  apply convert8601_same_fields; [congruence | exact Hagree].
Qed.

Lemma separators_and_postfix_ignored_witness :
  outcome (convert8601TimeStringToUnix Collaborators.stringToInt
             "2018-01-02T03:04:05+0000" address) =
  outcome (convert8601TimeStringToUnix Collaborators.stringToInt
             "2018x01y02z03a04b05cdefg" address).
Proof.
  apply separators_and_postfix_ignored; [reflexivity | reflexivity |].
  intros i Hi. rewrite digit_positions_list in Hi. simpl in Hi.
  repeat (destruct Hi as [<- | Hi]; [reflexivity |]). contradiction.
Defined.

End ParserStatements.

(** ** The formatter: statements about [convertTimeToUtcIso8601Rfc3339] *)
Section FormatterStatements.
Import TimeUtils Notions.
Local Open Scope string_scope.

(** C7, as stated, fails on its own example: 1500 ms after epoch-second 1000
    is second 1001, which is 00:16:41, so the output ends in ":41.500Z" and
    not in ":40.500Z". *)
Lemma instant_1001500ms_not_40 :
  convertTimeToUtcIso8601Rfc3339 Collaborators.getGmtime Collaborators.strftime
    1000000 ((1000 * 1000 + 1500) * 1000000) address =
  Returns true (Some "1970-01-01T00:16:41.500Z") [] /\
  Collaborators.ends_with ":40.500Z" "1970-01-01T00:16:41.500Z" = false.
Proof. split; vm_compute; reflexivity. Qed.

(** C7 (amended). For every time point a non-negative whole number m of
    milliseconds after the epoch, when the civil breakdown is available and
    rendering succeeds, the string produced through a non-null output
    pointer is the rendered prefix followed by '.', by (m mod 1000) as
    exactly three zero-padded decimal digits, and by 'Z'.  With the
    collaborators of the specification, the instant 1500 ms after
    epoch-second 1000 ends in ":41.500Z", and a 5 ms remainder renders as
    ".005Z", not ".5Z". *)
Theorem millisecond_fraction_three_digits (ticks_per_ms : Z) :
  0 < ticks_per_ms ->
  (forall (getGmtime : Z -> option tm) (strftime : nat -> string -> tm -> string)
          (m : Z) (utcTm : tm),
     0 <= m ->
     getGmtime (m / 1000) = Some utcTm ->
     strftime 28%nat format utcTm <> "" ->
     convertTimeToUtcIso8601Rfc3339 getGmtime strftime ticks_per_ms
       (m * ticks_per_ms) address =
     Returns true
       (Some (strftime 28%nat format utcTm ++ "." ++
              Collaborators.three_digits (m mod 1000) ++ "Z")) []) /\
  (convertTimeToUtcIso8601Rfc3339 Collaborators.getGmtime
     Collaborators.strftime ticks_per_ms
     ((1000 * 1000 + 1500) * ticks_per_ms) address =
   Returns true (Some "1970-01-01T00:16:41.500Z") [] /\
   Collaborators.ends_with ":41.500Z" "1970-01-01T00:16:41.500Z" = true) /\
  (convertTimeToUtcIso8601Rfc3339 Collaborators.getGmtime
     Collaborators.strftime ticks_per_ms (5 * ticks_per_ms) address =
   Returns true (Some "1970-01-01T00:00:00.005Z") [] /\
   Collaborators.ends_with ".005Z" "1970-01-01T00:00:00.005Z" = true /\
   Collaborators.ends_with ".5Z" "1970-01-01T00:00:00.005Z" = false).
Proof.
  intro Hpos. split; [| split].
  - intros getGmtime strftime m utcTm Hm Hgm Hbuf.
    pose proof (milliseconds_whole ticks_per_ms Hpos m) as Hms.
    rewrite (convertTime_success getGmtime strftime ticks_per_ms _ utcTm).
    + rewrite Hms, millisecondField_nonnegative by exact Hm. reflexivity.
    + rewrite Hms, seconds_nonnegative by exact Hm. exact Hgm.
    + exact Hbuf.
  - split; [| reflexivity].
    unfold convertTimeToUtcIso8601Rfc3339. cbv zeta.
    rewrite (milliseconds_whole ticks_per_ms Hpos). reflexivity.
  - split; [| split; reflexivity].
    unfold convertTimeToUtcIso8601Rfc3339. cbv zeta.
    rewrite (milliseconds_whole ticks_per_ms Hpos). reflexivity.
Qed.

Lemma millisecond_fraction_three_digits_witness :
  convertTimeToUtcIso8601Rfc3339 Collaborators.getGmtime Collaborators.strftime
    1000000 (1514862245678 * 1000000) address =
  Returns true
    (Some (Collaborators.strftime 28%nat format (mk_tm 5 4 3 2 0 118 0) ++ "." ++
           Collaborators.three_digits (1514862245678 mod 1000) ++ "Z")) [].
Proof.
  apply (proj1 (millisecond_fraction_three_digits 1000000 ltac:(lia))
           Collaborators.getGmtime Collaborators.strftime 1514862245678
           (mk_tm 5 4 3 2 0 118 0)).
  - lia.
  - reflexivity.
  - vm_compute. discriminate.
Defined.

(** C10, as stated, fails in its closing clause: the rendered field is the
    true m mod 1000 also for time points before the epoch, whenever the
    millisecond count is a multiple of 1000.  Two seconds before the epoch
    (m = -2000) the field is 000 and the output is on the profile; one tick
    before the epoch the count truncates to m = 0 and the field is 000
    too. *)
Lemma whole_second_before_epoch_renders_true_value :
  -2000000000 < 0 /\
  milliseconds 1000000 (-2000000000) = -2000 /\
  millisecondField (-2000) = Collaborators.three_digits (-2000 mod 1000) /\
  convertTimeToUtcIso8601Rfc3339 Collaborators.getGmtime Collaborators.strftime
    1000000 (-2000000000) address =
  Returns true (Some "1969-12-31T23:59:58.000Z") [] /\
  Collaborators.ends_with_millis "1969-12-31T23:59:58.000Z" = true /\
  milliseconds 1000000 (-1) = 0 /\
  millisecondField 0 = Collaborators.three_digits (0 mod 1000).
Proof. repeat split; vm_compute; reflexivity. Qed.

(** C10 (amended). For a time point strictly before the epoch whose
    millisecond count m is not a multiple of 1000, the millisecond field is
    the truncating remainder m % 1000, which is negative, and the whole
    seconds are m / 1000 truncated toward zero (one more than the floor);
    the fraction of the returned string is then not three zero-padded
    decimal digits, nor the digits of m mod 1000, and the output is off the
    YYYY-MM-DDTHH:MM:SS.mmmZ profile.  For time points at or after the epoch
    the field is the true m mod 1000 on three digits; in general the field
    is the true m mod 1000 exactly when m is not negative or is a multiple
    of 1000. *)
Theorem negative_time_point_fraction
    (getGmtime : Z -> option tm) (strftime : nat -> string -> tm -> string)
    (ticks_per_ms tp m : Z) (utcTm : tm) :
  0 < ticks_per_ms ->
  m = milliseconds ticks_per_ms tp ->
  (tp < 0 -> m mod 1000 <> 0 ->
   getGmtime (seconds m) = Some utcTm ->
   strftime 28%nat format utcTm <> "" ->
   Z.rem m 1000 < 0 /\
   seconds m = m / 1000 + 1 /\
   millisecondField m <> Collaborators.three_digits (m mod 1000) /\
   exists out : string,
     convertTimeToUtcIso8601Rfc3339 getGmtime strftime ticks_per_ms tp address =
     Returns true (Some out) [] /\
     out = strftime 28%nat format utcTm ++ "." ++
           setfill_setw "0" 3 (Z.rem m 1000) ++ "Z" /\
     Collaborators.ends_with_millis out = false) /\
  (0 <= tp ->
   millisecondField m = Collaborators.three_digits (m mod 1000)) /\
  (millisecondField m = Collaborators.three_digits (m mod 1000) <->
   0 <= m \/ m mod 1000 = 0).
Proof.
  intros Hpos Hm. split; [| split].
  - intros Htp Hnot Hgm Hbuf.
    pose proof (proj2 (milliseconds_sign ticks_per_ms Hpos tp) Htp) as Hle.
    rewrite <- Hm in Hle.
    assert (Hrem : -1000 < Z.rem m 1000 < 0 /\
                   Z.rem m 1000 mod 1000 = m mod 1000 /\
                   Z.quot m 1000 = m / 1000 + 1)
      by (Z.to_euclidean_division_equations; lia).
    destruct Hrem as (Hrange & Hmod & Hquot).
    destruct (negative_field (strftime 28%nat format utcTm) (Z.rem m 1000) Hrange)
      as [Hoff Hneq].
    split; [lia | split; [exact Hquot | split]].
    + unfold millisecondField. rewrite <- Hmod. exact Hneq.
    + eexists. split; [| split; [reflexivity | exact Hoff]].
      subst m. apply convertTime_success; assumption.
  - intro Htp. apply millisecondField_nonnegative.
    subst m. exact (proj1 (milliseconds_sign ticks_per_ms Hpos tp) Htp).
  - split.
    + intro Heq.
      destruct (Z_lt_le_dec m 0) as [Hneg | Hge]; [| left; exact Hge].
      right. destruct (Z.eq_dec (m mod 1000) 0) as [Hzero | Hnot];
        [exact Hzero | exfalso].
      assert (Hrem : -1000 < Z.rem m 1000 < 0 /\
                     Z.rem m 1000 mod 1000 = m mod 1000)
        by (Z.to_euclidean_division_equations; lia).
      destruct Hrem as (Hrange & Hmod).
      destruct (negative_field "" (Z.rem m 1000) Hrange) as [_ Hneq].
      apply Hneq. rewrite Hmod. exact Heq.
    + intros [Hge | Hzero]; [exact (millisecondField_nonnegative m Hge) |].
      assert (Hrem : Z.rem m 1000 = 0)
        by (Z.to_euclidean_division_equations; lia).
      unfold millisecondField. rewrite Hrem, Hzero. reflexivity.
Qed.

Lemma negative_time_point_fraction_witness :
  Z.rem (-5) 1000 < 0 /\
  seconds (-5) = -5 / 1000 + 1 /\
  millisecondField (-5) <> Collaborators.three_digits (-5 mod 1000) /\
  exists out : string,
    convertTimeToUtcIso8601Rfc3339 Collaborators.getGmtime
      Collaborators.strftime 1000000 (-5000000) address =
    Returns true (Some out) [] /\
    out = Collaborators.strftime 28%nat format (mk_tm 0 0 0 1 0 70 0) ++ "." ++
          setfill_setw "0" 3 (Z.rem (-5) 1000) ++ "Z" /\
    Collaborators.ends_with_millis out = false.
Proof.
  apply (proj1 (negative_time_point_fraction Collaborators.getGmtime
                  Collaborators.strftime 1000000 (-5000000) (-5)
                  (mk_tm 0 0 0 1 0 70 0) ltac:(lia) ltac:(reflexivity))).
  - lia.
  - vm_compute. discriminate.
  - reflexivity.
  - vm_compute. discriminate.
Defined.

End FormatterStatements.

(** ** Output parameters on failure *)
Section OutputParameters.
Import Calendar Layout TimeUtils Notions.
Local Open Scope string_scope.

Lemma untouched_None {A : Type} (result : bool) (log : list LogEntry) :
  untouched_on_failure (@Returns A result None log).
Proof.
  intros stored log' Heq. injection Heq as _ <- _. split; reflexivity.
Qed.

Lemma untouched_true {A : Type} (stored : option A) (log : list LogEntry) :
  untouched_on_failure (Returns true stored log).
Proof. intros stored' log' Heq. discriminate. Qed.

Lemma untouched_Undefined {A : Type} : untouched_on_failure (@Undefined A).
Proof. intros stored log Heq. discriminate. Qed.

Lemma convertToUtcTimeT_untouched (utcTm : tm) (ret : pointer) :
  untouched_on_failure (convertToUtcTimeT utcTm ret).
Proof.
  unfold convertToUtcTimeT. destruct ret; [apply untouched_None |].
  destruct (timegmCustom utcTm);
    [apply untouched_true | apply untouched_Undefined].
Qed.

Lemma convert8601_untouched
    (stringToInt : string -> option Z) (s : string) (p : pointer) :
  untouched_on_failure (convert8601TimeStringToUnix stringToInt s p).
Proof.
  unfold convert8601TimeStringToUnix. destruct p; [apply untouched_None |].
  destruct (negb _); [apply untouched_None |].
  repeat match goal with
         | |- context [match stringToInt ?x with _ => _ end] =>
             destruct (stringToInt x); [| apply untouched_None]
         end.
  destruct (convertToUtcTimeT _ address) as [[|] [time |] log |];
    first [apply untouched_None | apply untouched_true
          | apply untouched_Undefined].
Qed.

Lemma convertTime_untouched
    (getGmtime : Z -> option tm) (strftime : nat -> string -> tm -> string)
    (ticks_per_ms tp : Z) (p : pointer) :
  untouched_on_failure
    (convertTimeToUtcIso8601Rfc3339 getGmtime strftime ticks_per_ms tp p).
Proof.
  unfold convertTimeToUtcIso8601Rfc3339. cbv zeta.
  destruct (getGmtime _); [| apply untouched_None].
  destruct (_ =? 0)%nat; [apply untouched_None |].
  destruct p; [apply untouched_Undefined | apply untouched_true].
Qed.

(** C8, as stated, fails for [getCurrentUnixTime]: the clock value is stored
    before its sign is tested, so a reading before the epoch is written
    through the pointer although the call returns false. *)
Lemma getCurrentUnixTime_stores_on_failure :
  getCurrentUnixTime (-1) address = Returns false (Some (-1)) [] /\
  behind 0 (Some (-1)) <> 0 /\
  ~ untouched_on_failure (getCurrentUnixTime (-1) address).
Proof.
  split; [reflexivity | split; [discriminate |]].
  intro Hun. destruct (Hun (Some (-1)) [] eq_refl) as [Hnone _].
  discriminate.
Qed.

(** C8 (amended). For [convert8601TimeStringToUnix], [convertToUtcTimeT] and
    [convertTimeToUtcIso8601Rfc3339], on every input on which the operation
    returns false nothing is written through the output parameter and the
    value behind it is unchanged; the same holds for [getCurrentUnixTime]
    when it fails on a null pointer. *)
Theorem failure_leaves_output_untouched :
  (forall (stringToInt : string -> option Z) (s : string) (p : pointer),
     untouched_on_failure (convert8601TimeStringToUnix stringToInt s p)) /\
  (forall (utcTm : tm) (ret : pointer),
     untouched_on_failure (convertToUtcTimeT utcTm ret)) /\
  (forall (getGmtime : Z -> option tm)
          (strftime : nat -> string -> tm -> string)
          (ticks_per_ms tp : Z) (p : pointer),
     untouched_on_failure
       (convertTimeToUtcIso8601Rfc3339 getGmtime strftime ticks_per_ms tp p)) /\
  (forall now : Z, untouched_on_failure (getCurrentUnixTime now nullptr)).
Proof.
  split; [exact convert8601_untouched |].
  split; [exact convertToUtcTimeT_untouched |].
  split; [exact convertTime_untouched |].
  intro now. apply untouched_None.
Qed.

Lemma failure_leaves_output_untouched_witness :
  convert8601TimeStringToUnix Collaborators.stringToInt
    "2018-0a-02T03:04:05+0000" address =
  Returns false None
    [LX_m "convert8601TimeStringToUnixFailed"
          "error parsing month. Input:2018-0a-02T03:04:05+0000"] /\
  behind 42 (@None Z) = 42.
Proof.
  split; [reflexivity |].
  destruct (proj1 failure_leaves_output_untouched Collaborators.stringToInt
              "2018-0a-02T03:04:05+0000" address None
              [LX_m "convert8601TimeStringToUnixFailed"
                    "error parsing month. Input:2018-0a-02T03:04:05+0000"]
              eq_refl) as [_ Hbehind].
  exact (Hbehind 42).
Defined.

End OutputParameters.

(** ** [timegmCustom] on all years *)
Section AllYears.
Import Calendar Dates Fields.

Lemma leapb_of_tm_year (Y : Z) : IsLeapYear (Y - 1900) = Gregorian.leapb Y.
Proof.
  rewrite IsLeapYear_leapb. unfold kTMYearBase. f_equal. lia.
Qed.

(** Entry [M - 1] of the month table the code selects for the year is the
    number of days of that year before month [M]. *)
Lemma month_table (Y M : Z) :
  1 <= M <= 12 ->
  index (if IsLeapYear (Y - 1900) then kDaysUptoMonthLeapYear
         else kDaysUptoMonth) (M - 1) = Some (days_before_month Y M).
Proof.
  intro HM. rewrite leapb_of_tm_year.
  unfold days_before_month, Civil.days_in_month.
  assert (Hcases : M = 1 \/ M = 2 \/ M = 3 \/ M = 4 \/ M = 5 \/ M = 6 \/
                   M = 7 \/ M = 8 \/ M = 9 \/ M = 10 \/ M = 11 \/ M = 12)
    by lia.
  destruct (Gregorian.leapb Y);
    repeat (destruct Hcases as [-> | Hcases]); try subst M; reflexivity.
Qed.

Lemma year_start_NumLeapDays (Y : Z) :
  year_start Y = (Y - 1970) * 365 + NumLeapDays (Y - 1970).
Proof.
  unfold year_start. rewrite NumLeapDays_floor.
  replace (1969 + (Y - 1970)) with (Y - 1) by lia. lia.
Qed.

Lemma civilToEpoch_days (c : CivilTime) :
  1 <= month c <= 12 ->
  int_range (day c - 1) ->
  Civil.civilToEpoch c = Some (day_number c * 86400 + time_of_day c).
Proof.
  intros HM Hday. unfold Civil.civilToEpoch.
  rewrite (timegmCustom_sum (Civil.to_tm c) (days_before_month (year c) (month c))).
  - unfold day_number, time_of_day. rewrite year_start_NumLeapDays.
    destruct c as [Y M D h mi s]. cbn. f_equal.
    replace (Y - 1900 - 70) with (Y - 1970) by lia. lia.
  - destruct c as [Y M D h mi s]. cbn in *. apply month_table. exact HM.
  - destruct c as [Y M D h mi s]. exact Hday.
Qed.

Lemma days_in_month_bounds (Y M : Z) : 28 <= Civil.days_in_month Y M <= 31.
Proof.
  unfold Civil.days_in_month.
  destruct (M =? 2); [destruct (Gregorian.leapb Y); lia |].
  destruct ((M =? 4) || (M =? 6) || (M =? 9) || (M =? 11)); lia.
Qed.

Lemma valid_date_decrement (c : CivilTime) :
  valid_date c -> int_range (day c - 1).
Proof.
  intros [_ HD]. pose proof (days_in_month_bounds (year c) (month c)).
  apply small_day_in_int. lia.
Qed.

Lemma valid_decrement (c : CivilTime) :
  Civil.valid c -> int_range (day c - 1).
Proof.
  intros (HM & HD & _). exact (valid_date_decrement c (conj HM HD)).
Qed.

(** X1. On every year a [struct tm] can hold, for [int] members with the
    day of the month above [INT_MIN] and a month in [1, 12], in or out of
    the calendar ranges otherwise, [timegmCustom] returns 86400 times the
    calendar's day count from 1970-01-01 to the date (365 per year, one more
    per leap year, the month lengths of the year, the day of the month) plus
    the seconds of the day. *)
Theorem timegmCustom_is_day_count (c : CivilTime) :
  int_members (Civil.to_tm c) ->
  1 <= month c <= 12 ->
  timegmCustom (Civil.to_tm c) = Some (day_number c * 86400 + time_of_day c).
Proof.
  intros Hint HM. apply (civilToEpoch_days c HM).
  destruct Hint as (_ & _ & _ & _ & _ & _ & Hday).
  destruct c as [Y M D h mi s]. exact Hday.
Qed.

Lemma timegmCustom_is_day_count_witness :
  timegmCustom (Civil.to_tm (mk_civil 1600 2 29 23 59 59)) =
  Some (day_number (mk_civil 1600 2 29 23 59 59) * 86400 +
        time_of_day (mk_civil 1600 2 29 23 59 59)).
Proof.
  apply (timegmCustom_is_day_count (mk_civil 1600 2 29 23 59 59)).
  - unfold int_members, int_range. simpl. lia.
  - simpl. lia.
Defined.

Lemma year_start_step (Y : Z) :
  year_start (Y + 1) = year_start Y + days_in_year Y.
Proof.
  unfold year_start, days_in_year.
  replace (Y + 1 - 1) with (Y - 1 + 1) by lia.
  rewrite leap_years_upto_step.
  replace (Y - 1 + 1) with Y by lia.
  destruct (Gregorian.leapb Y); lia.
Qed.

Lemma year_start_le (Y : Z) (n : nat) :
  year_start Y + 365 * Z.of_nat n <= year_start (Y + Z.of_nat n).
Proof.
  induction n as [| n IH].
  - replace (Y + Z.of_nat 0) with Y by lia. lia.
  - replace (Y + Z.of_nat (S n)) with (Y + Z.of_nat n + 1) by lia.
    rewrite year_start_step. unfold days_in_year.
    destruct (Gregorian.leapb (Y + Z.of_nat n)); lia.
Qed.

(** The first of January of a later year comes after the whole of an
    earlier year. *)
Lemma year_start_lt (Y1 Y2 : Z) :
  Y1 < Y2 -> year_start Y1 + days_in_year Y1 <= year_start Y2.
Proof.
  intro Hlt. rewrite <- year_start_step.
  pose proof (year_start_le (Y1 + 1) (Z.to_nat (Y2 - (Y1 + 1)))) as Hle.
  replace (Y1 + 1 + Z.of_nat (Z.to_nat (Y2 - (Y1 + 1)))) with Y2 in Hle by lia.
  lia.
Qed.

Lemma month_cases (M : Z) :
  1 <= M <= 12 ->
  M = 1 \/ M = 2 \/ M = 3 \/ M = 4 \/ M = 5 \/ M = 6 \/
  M = 7 \/ M = 8 \/ M = 9 \/ M = 10 \/ M = 11 \/ M = 12.
Proof. lia. Qed.

(** A month starts where the month before ends, and December ends with the
    year. *)
Lemma days_before_month_step (Y M : Z) :
  1 <= M <= 12 ->
  days_before_month Y M + Civil.days_in_month Y M =
  if M =? 12 then days_in_year Y else days_before_month Y (M + 1).
Proof.
  intro HM. unfold days_before_month, days_in_year, Civil.days_in_month.
  destruct (month_cases M HM) as
    [-> | [-> | [-> | [-> | [-> | [-> | [-> | [-> | [-> | [-> | [-> | ->]]]]]]]]]]];
    destruct (Gregorian.leapb Y); reflexivity.
Qed.

Lemma days_before_month_range (Y M : Z) :
  1 <= M <= 12 ->
  0 <= days_before_month Y M /\
  days_before_month Y M + Civil.days_in_month Y M <= days_in_year Y.
Proof.
  intro HM. unfold days_before_month, days_in_year, Civil.days_in_month.
  destruct (month_cases M HM) as
    [-> | [-> | [-> | [-> | [-> | [-> | [-> | [-> | [-> | [-> | [-> | ->]]]]]]]]]]];
    destruct (Gregorian.leapb Y); vm_compute; split; discriminate.
Qed.

Lemma days_before_month_le (Y : Z) (n : nat) (M : Z) :
  1 <= M -> M + Z.of_nat n <= 12 ->
  days_before_month Y M + 28 * Z.of_nat n <=
  days_before_month Y (M + Z.of_nat n).
Proof.
  intros HM. induction n as [| n IH]; intro Hle.
  - replace (M + Z.of_nat 0) with M by lia. lia.
  - replace (M + Z.of_nat (S n)) with (M + Z.of_nat n + 1) by lia.
    pose proof (days_before_month_step Y (M + Z.of_nat n) ltac:(lia)) as Hstep.
    destruct (Z.eqb_spec (M + Z.of_nat n) 12) as [Heq | Hneq]; [lia |].
    pose proof (days_in_month_bounds Y (M + Z.of_nat n)).
    specialize (IH ltac:(lia)). lia.
Qed.

(** Within a year, a later month starts after the whole of an earlier
    one. *)
Lemma days_before_month_lt (Y M1 M2 : Z) :
  1 <= M1 -> M1 < M2 -> M2 <= 12 ->
  days_before_month Y M1 + Civil.days_in_month Y M1 <= days_before_month Y M2.
Proof.
  intros H1 Hlt H2.
  pose proof (days_before_month_step Y M1 ltac:(lia)) as Hstep.
  destruct (Z.eqb_spec M1 12) as [Heq | Hneq]; [lia |].
  pose proof (days_before_month_le Y (Z.to_nat (M2 - (M1 + 1))) (M1 + 1)
                ltac:(lia) ltac:(lia)) as Hle.
  replace (M1 + 1 + Z.of_nat (Z.to_nat (M2 - (M1 + 1)))) with M2 in Hle by lia.
  lia.
Qed.

Lemma day_number_next_day (c : CivilTime) :
  1 <= month c <= 12 ->
  day c <= Civil.days_in_month (year c) (month c) ->
  day_number (next_day c) = day_number c + 1.
Proof.
  intros HM HD. destruct c as [Y M D h mi s]. unfold next_day, day_number.
  cbn [year month day hour minute second] in *.
  destruct (Z.ltb_spec D (Civil.days_in_month Y M)) as [Hlt | Hge].
  - cbn [year month day]. lia.
  - pose proof (days_before_month_step Y M HM) as Hstep.
    destruct (Z.ltb_spec M 12) as [HM12 | HM12]; cbn [year month day].
    + destruct (Z.eqb_spec M 12); lia.
    + assert (M = 12) by lia. subst M. cbn [Z.eqb Pos.eqb] in Hstep.
      rewrite year_start_step.
      change (days_before_month (Y + 1) 1) with 0. lia.
Qed.

(** X2. For a date of the calendar (month in [1, 12], day in the month)
    whose [struct tm] and that of the following date have [int] members,
    moving to the following date (the next day of the month, the first of
    the next month after the last day, the first of January after the 31st
    of December) adds exactly 86400 seconds, whatever the time of day. *)
Theorem civilToEpoch_next_day (c : CivilTime) :
  valid_date c ->
  int_members (Civil.to_tm c) ->
  int_members (Civil.to_tm (next_day c)) ->
  exists time : Z,
    Civil.civilToEpoch c = Some time /\
    Civil.civilToEpoch (next_day c) = Some (time + 86400).
Proof.
  intros Hvalid Hint Hint'.
  pose proof (valid_date_decrement c Hvalid) as Hday.
  assert (Hday' : int_range (day (next_day c) - 1)).
  { destruct Hint' as (_ & _ & _ & _ & _ & _ & Hd).
    destruct (next_day c). exact Hd. }
  destruct Hvalid as [HM [_ HD]].
  assert (HM' : 1 <= month (next_day c) <= 12).
  { unfold next_day.
    destruct (day c <? _); [exact HM |].
    destruct (Z.ltb_spec (month c) 12); cbn [month]; lia. }
  assert (Htod : time_of_day (next_day c) = time_of_day c).
  { unfold next_day, time_of_day.
    destruct (day c <? _); [reflexivity |].
    destruct (month c <? 12); reflexivity. }
  rewrite (civilToEpoch_days c HM Hday),
    (civilToEpoch_days (next_day c) HM' Hday').
  rewrite (day_number_next_day c HM HD), Htod.
  eexists. split; [reflexivity |]. f_equal. lia.
Qed.

Lemma civilToEpoch_next_day_witness :
  exists time : Z,
    Civil.civilToEpoch (mk_civil 1900 2 28 12 0 0) = Some time /\
    Civil.civilToEpoch (next_day (mk_civil 1900 2 28 12 0 0)) =
    Some (time + 86400).
Proof.
  apply (civilToEpoch_next_day (mk_civil 1900 2 28 12 0 0)).
  - unfold valid_date. cbn [year month day].
    change (Civil.days_in_month 1900 2) with 28. lia.
  - unfold int_members, int_range. simpl. lia.
  - unfold int_members, int_range. simpl. lia.
Defined.

Lemma day_of_year_range (c : CivilTime) :
  valid_date c ->
  0 <= days_before_month (year c) (month c) + (day c - 1) <
  days_in_year (year c).
Proof.
  intros [HM HD].
  pose proof (days_before_month_range (year c) (month c) HM). lia.
Qed.

(** The day count and the seconds of the day order civil times as the
    calendar does. *)
Lemma seconds_earlier (c1 c2 : CivilTime) :
  Civil.valid c1 -> Civil.valid c2 -> earlier c1 c2 ->
  day_number c1 * 86400 + time_of_day c1 <
  day_number c2 * 86400 + time_of_day c2.
Proof.
  intros (HM1 & HD1 & Hh1 & Hmi1 & Hs1) (HM2 & HD2 & Hh2 & Hmi2 & Hs2) Hlt.
  pose proof (day_of_year_range c1 (conj HM1 HD1)) as Hr1.
  pose proof (day_of_year_range c2 (conj HM2 HD2)) as Hr2.
  unfold day_number, time_of_day.
  destruct Hlt as [HY | [HY Hlt]].
  - pose proof (year_start_lt (year c1) (year c2) HY). lia.
  - rewrite HY in *. destruct Hlt as [HM | [HM Hlt]].
    + pose proof (days_before_month_lt (year c2) (month c1) (month c2)
                    ltac:(lia) HM ltac:(lia)). lia.
    + rewrite HM in *. lia.
Qed.

(** X3. [timegmCustom] is strictly increasing on the civil times of the
    calendar, on all years: of two valid civil times, the one that comes
    first field by field (year, month, day, hour, minute, second) has the
    smaller epoch value. *)
Theorem civilToEpoch_strictly_increasing (c1 c2 : CivilTime) :
  Civil.valid c1 -> Civil.valid c2 -> earlier c1 c2 ->
  exists t1 t2 : Z,
    Civil.civilToEpoch c1 = Some t1 /\
    Civil.civilToEpoch c2 = Some t2 /\ t1 < t2.
Proof.
  intros H1 H2 Hlt.
  rewrite (civilToEpoch_days c1 (proj1 H1) (valid_decrement c1 H1)),
    (civilToEpoch_days c2 (proj1 H2) (valid_decrement c2 H2)).
  do 2 eexists. split; [reflexivity | split; [reflexivity |]].
  apply seconds_earlier; assumption.
Qed.

Lemma civilToEpoch_strictly_increasing_witness :
  exists t1 t2 : Z,
    Civil.civilToEpoch (mk_civil 1899 12 31 23 59 59) = Some t1 /\
    Civil.civilToEpoch (mk_civil 1900 1 1 0 0 0) = Some t2 /\ t1 < t2.
Proof.
  apply (civilToEpoch_strictly_increasing (mk_civil 1899 12 31 23 59 59)
           (mk_civil 1900 1 1 0 0 0)).
  - unfold Civil.valid. cbn [year month day hour minute second].
    change (Civil.days_in_month 1899 12) with 31. lia.
  - unfold Civil.valid. cbn [year month day hour minute second].
    change (Civil.days_in_month 1900 1) with 31. lia.
  - left. simpl. lia.
Defined.

Lemma earlier_trichotomy (c1 c2 : CivilTime) :
  earlier c1 c2 \/ c1 = c2 \/ earlier c2 c1.
Proof.
  destruct c1 as [Y1 M1 D1 h1 mi1 s1], c2 as [Y2 M2 D2 h2 mi2 s2].
  unfold earlier. cbn [year month day hour minute second].
  destruct (Z.lt_total Y1 Y2) as [? | [-> | ?]]; [tauto | | tauto].
  destruct (Z.lt_total M1 M2) as [? | [-> | ?]]; [tauto | | tauto].
  destruct (Z.lt_total D1 D2) as [? | [-> | ?]]; [tauto | | tauto].
  destruct (Z.lt_total h1 h2) as [? | [-> | ?]]; [tauto | | tauto].
  destruct (Z.lt_total mi1 mi2) as [? | [-> | ?]]; [tauto | | tauto].
  destruct (Z.lt_total s1 s2) as [? | [-> | ?]]; [tauto | | tauto].
  right. left. reflexivity.
Qed.

(** X4. [timegmCustom] is injective on the civil times of the calendar, on
    all years: two valid civil times with the same epoch value are the same
    civil time. *)
Theorem civilToEpoch_injective (c1 c2 : CivilTime) :
  Civil.valid c1 -> Civil.valid c2 ->
  Civil.civilToEpoch c1 = Civil.civilToEpoch c2 -> c1 = c2.
Proof.
  intros H1 H2 Heq.
  rewrite (civilToEpoch_days c1 (proj1 H1) (valid_decrement c1 H1)),
    (civilToEpoch_days c2 (proj1 H2) (valid_decrement c2 H2)) in Heq.
  injection Heq as Heq.
  destruct (earlier_trichotomy c1 c2) as [Hlt | [Hsame | Hgt]].
  - pose proof (seconds_earlier c1 c2 H1 H2 Hlt). lia.
  - exact Hsame.
  - pose proof (seconds_earlier c2 c1 H2 H1 Hgt). lia.
Qed.

Lemma civilToEpoch_injective_witness :
  mk_civil 2018 1 2 3 4 5 = mk_civil 2018 1 2 3 4 5.
Proof.
  apply (civilToEpoch_injective (mk_civil 2018 1 2 3 4 5)
           (mk_civil 2018 1 2 3 4 5)).
  - unfold Civil.valid. cbn [year month day hour minute second].
    change (Civil.days_in_month 2018 1) with 31. lia.
  - unfold Civil.valid. cbn [year month day hour minute second].
    change (Civil.days_in_month 2018 1) with 31. lia.
  - reflexivity.
Defined.

(** X15. A day of the month past the end of the month is not rejected: it
    denotes the same instant as that many days into the following month
    (into January of the next year after December), on every year, as long
    as both [struct tm] have [int] members with the day of the month above
    [INT_MIN].  Day 30 of February is the 2nd of March, or the 1st in a leap
    year. *)
Theorem day_past_the_end_of_the_month (Y M D h mi s : Z) :
  1 <= M <= 12 ->
  int_members
    (Civil.to_tm (mk_civil Y M (Civil.days_in_month Y M + D) h mi s)) ->
  int_members
    (Civil.to_tm (if M =? 12 then mk_civil (Y + 1) 1 D h mi s
                  else mk_civil Y (M + 1) D h mi s)) ->
  Civil.civilToEpoch (mk_civil Y M (Civil.days_in_month Y M + D) h mi s) =
  Civil.civilToEpoch
    (if M =? 12 then mk_civil (Y + 1) 1 D h mi s
     else mk_civil Y (M + 1) D h mi s).
Proof.
  intros HM (_ & _ & _ & _ & _ & _ & Hday) Hint.
  cbn [Civil.to_tm tm_mday day] in Hday.
  rewrite civilToEpoch_days by (try exact HM; exact Hday).
  pose proof (days_before_month_step Y M HM) as Hstep.
  destruct (Z.eqb_spec M 12) as [HM12 | HM12];
    destruct Hint as (_ & _ & _ & _ & _ & _ & Hday');
    cbn [Civil.to_tm tm_mday day] in Hday'.
  - rewrite civilToEpoch_days by (try exact Hday'; cbn; lia).
    unfold day_number, time_of_day. cbn [year month day hour minute second].
    rewrite year_start_step.
    change (days_before_month (Y + 1) 1) with 0. f_equal. lia.
  - rewrite civilToEpoch_days by (try exact Hday'; cbn; lia).
    unfold day_number, time_of_day. cbn [year month day hour minute second].
    f_equal. lia.
Qed.

Lemma day_past_the_end_of_the_month_witness :
  Civil.civilToEpoch (mk_civil 2019 2 (Civil.days_in_month 2019 2 + 2) 0 0 0) =
  Civil.civilToEpoch (if 2 =? 12 then mk_civil (2019 + 1) 1 2 0 0 0
                      else mk_civil 2019 (2 + 1) 2 0 0 0).
Proof.
  apply (day_past_the_end_of_the_month 2019 2 2 0 0 0).
  - lia.
  - unfold int_members, int_range. simpl. lia.
  - unfold int_members, int_range. simpl. lia.
Defined.

Lemma prev_day_valid (c : CivilTime) :
  valid_date c -> valid_date (prev_day c) /\ next_day (prev_day c) = c.
Proof.
  intros [HM HD]. destruct c as [Y M D h mi s].
  unfold valid_date, prev_day, next_day in *.
  cbn [year month day hour minute second] in *.
  destruct (Z.ltb_spec 1 D) as [HD1 | HD1];
    cbn [year month day hour minute second].
  - split; [lia |].
    destruct (Z.ltb_spec (D - 1) (Civil.days_in_month Y M)); [| lia].
    f_equal. lia.
  - assert (D = 1) by lia. subst D.
    destruct (Z.ltb_spec 1 M) as [HM1 | HM1];
      cbn [year month day hour minute second].
    + pose proof (days_in_month_bounds Y (M - 1)).
      split; [lia |].
      rewrite Z.ltb_irrefl.
      destruct (Z.ltb_spec (M - 1) 12); [| lia].
      f_equal. lia.
    + assert (M = 1) by lia. subst M.
      change (Civil.days_in_month (Y - 1) 12) with 31.
      split; [lia |]. cbn. f_equal. lia.
Qed.

Lemma next_day_valid (c : CivilTime) : valid_date c -> valid_date (next_day c).
Proof.
  intros [HM HD]. destruct c as [Y M D h mi s].
  unfold valid_date, next_day in *.
  cbn [year month day hour minute second] in *.
  destruct (Z.ltb_spec D (Civil.days_in_month Y M));
    cbn [year month day hour minute second]; [lia |].
  destruct (Z.ltb_spec M 12); cbn [year month day hour minute second].
  - pose proof (days_in_month_bounds Y (M + 1)). lia.
  - change (Civil.days_in_month (Y + 1) 1) with 31. lia.
Qed.

(** Every day count, before or after 1970-01-01, is that of a date of the
    calendar. *)
Lemma day_number_onto (K : Z) :
  exists c : CivilTime,
    valid_date c /\ day_number c = K /\
    hour c = 0 /\ minute c = 0 /\ second c = 0.
Proof.
  induction K as [| K IH | K IH] using Z.peano_ind.
  - exists (mk_civil 1970 1 1 0 0 0). repeat split; vm_compute; discriminate.
  - destruct IH as (c & Hv & Hdn & Hh & Hmi & Hs).
    exists (next_day c). split; [exact (next_day_valid c Hv) |].
    split; [rewrite day_number_next_day; [lia | apply Hv | apply Hv] |].
    unfold next_day.
    destruct (day c <? _); [cbn; tauto |].
    destruct (month c <? 12); cbn; tauto.
  - destruct IH as (c & Hv & Hdn & Hh & Hmi & Hs).
    destruct (prev_day_valid c Hv) as [Hpv Hnext].
    exists (prev_day c). split; [exact Hpv |].
    split.
    + pose proof (day_number_next_day (prev_day c) (proj1 Hpv)
                    (proj2 (proj2 Hpv))) as Hstep.
      rewrite Hnext in Hstep. lia.
    + unfold prev_day.
      destruct (1 <? day c); [cbn; tauto |].
      destruct (1 <? month c); cbn; tauto.
Qed.

Lemma year_start_after_1970 (Y : Z) :
  1970 <= Y -> 365 * (Y - 1970) <= year_start Y.
Proof.
  intro HY.
  pose proof (year_start_le 1970 (Z.to_nat (Y - 1970))) as Hle.
  replace (1970 + Z.of_nat (Z.to_nat (Y - 1970))) with Y in Hle by lia.
  change (year_start 1970) with 0 in Hle. lia.
Qed.

Lemma year_start_before_1970 (Y : Z) :
  Y <= 1970 -> year_start Y <= - (365 * (1970 - Y)).
Proof.
  intro HY.
  pose proof (year_start_le Y (Z.to_nat (1970 - Y))) as Hle.
  replace (Y + Z.of_nat (Z.to_nat (1970 - Y))) with 1970 in Hle by lia.
  change (year_start 1970) with 0 in Hle. lia.
Qed.

(** X5. Every second within 2^55 of the epoch, before or after it, is the
    epoch value [timegmCustom] returns for some valid civil time whose
    [struct tm] has [int] members: together with injectivity, over that
    span (more than a thousand million years each way) the valid civil
    times and the epoch seconds correspond one to one. *)
Theorem civilToEpoch_onto (time : Z) :
  - 2 ^ 55 <= time < 2 ^ 55 ->
  exists c : CivilTime,
    Civil.valid c /\ int_members (Civil.to_tm c) /\
    Civil.civilToEpoch c = Some time.
Proof.
  intro Htime.
  destruct (day_number_onto (time / 86400)) as (c0 & [HM HD] & Hdn & _).
  set (r := time mod 86400).
  assert (Hr : 0 <= r < 86400) by (apply Z.mod_pos_bound; lia).
  pose proof (days_in_month_bounds (year c0) (month c0)) as Hdim.
  pose proof (day_of_year_range c0 (conj HM HD)) as Hdoy.
  assert (Hseconds : (year_start (year c0) +
                      (days_before_month (year c0) (month c0) + (day c0 - 1)))
                     * 86400 + r = time).
  { unfold day_number in Hdn. subst r.
    Z.to_euclidean_division_equations; lia. }
  assert (Hyear : int_range (year c0 - 1900)).
  { unfold int_range, days_in_year in *.
    change (2 ^ 31) with 2147483648.
    change (2 ^ 55) with 36028797018963968 in Htime.
    destruct (Z_le_gt_dec 1970 (year c0)) as [Hafter | Hbefore].
    - pose proof (year_start_after_1970 (year c0) Hafter).
      destruct (Gregorian.leapb (year c0)); lia.
    - pose proof (year_start_before_1970 (year c0) ltac:(lia)).
      destruct (Gregorian.leapb (year c0)); lia. }
  exists (mk_civil (year c0) (month c0) (day c0)
            (r / 3600) ((r / 60) mod 60) (r mod 60)).
  assert (Hvalid : Civil.valid
                     (mk_civil (year c0) (month c0) (day c0)
                        (r / 3600) ((r / 60) mod 60) (r mod 60))).
  { unfold Civil.valid. cbn [year month day hour minute second].
    repeat split; try apply HM; try apply HD;
      Z.to_euclidean_division_equations; lia. }
  split; [exact Hvalid |]. split.
  - destruct Hvalid as (_ & _ & Hh & Hmi & Hs).
    cbn [year month day hour minute second] in Hh, Hmi, Hs.
    unfold int_members, Civil.to_tm.
    cbn [tm_sec tm_min tm_hour tm_mday tm_mon tm_year
         year month day hour minute second].
    unfold int_range in *. change (2 ^ 31) with 2147483648 in *.
    repeat split; lia.
  - rewrite civilToEpoch_days
      by (try exact HM; exact (valid_decrement _ Hvalid)).
    unfold day_number, time_of_day.
    cbn [year month day hour minute second].
    f_equal. rewrite <- Hseconds.
    Z.to_euclidean_division_equations; lia.
Qed.

Lemma civilToEpoch_onto_witness :
  exists c : CivilTime,
    Civil.valid c /\ int_members (Civil.to_tm c) /\
    Civil.civilToEpoch c = Some (-62167219201).
Proof.
  apply (civilToEpoch_onto (-62167219201)).
  simpl. lia.
Defined.

End AllYears.

(** ** [timegmCustom]: bounds, cycle and carries *)
Section TimegmCustomFields.
Import Calendar Fields Intermediates.

(** X7. With [int] members, the day of the month above [INT_MIN] and a
    month in [0, 11], [timegmCustom] returns a value, and every [time_t]
    value it forms on the way lies in the range of a signed 64-bit
    [time_t]: the year offsets, each sum, quotient and difference inside
    [NumLeapDays], every product, and [time] after each assignment.  The
    arithmetic cannot overflow. *)
Theorem timegmCustom_fits_time_t (t : tm) :
  int_members t ->
  0 <= tm_mon t <= 11 ->
  exists (d time : Z),
    index (if IsLeapYear (tm_year t) then kDaysUptoMonthLeapYear
           else kDaysUptoMonth) (tm_mon t) = Some d /\
    int_sub (tm_mday t) 1 = Some (tm_mday t - 1) /\
    timegmCustom t = Some time /\
    time_t_range time /\
    Forall time_t_range (of_timegmCustom t d).
Proof.
  intros (Hs & Hm & Hh & Hd & _ & Hy & Hd1) Hmon.
  destruct (index_months (IsLeapYear (tm_year t)) (tm_mon t) Hmon)
    as [d [Hidx Hdr]].
  destruct (timegmCustom_no_overflow t d Hy Hd Hd1 Hh Hm Hs Hidx)
    as [Hall Htime].
  cbv zeta in Hall, Htime. rewrite Forall_forall in Hall.
  exists d. eexists. split; [exact Hidx |].
  split; [exact (int_sub_in_range _ _ Hd1) |].
  split; [exact Htime |].
  split; [apply Hall; cbn; tauto |].
  clear Hall Htime.
  unfold of_timegmCustom, of_NumLeapDays, of_IsLeapYear. cbv zeta.
  rewrite land_3_mod_4.
  assert (Hfull : -2147483648 + 1900 <= tm_year t + kTMYearBase
                  <= 2147483648 + 1900).
  { unfold int_range in Hy. change (2 ^ 31) with 2147483648 in Hy.
    unfold kTMYearBase. lia. }
  set (full_year := tm_year t + kTMYearBase) in *.
  set (masked := tm_year t mod 4).
  assert (Hmasked : 0 <= masked < 4) by (apply Z.mod_pos_bound; lia).
  clearbody masked.
  set (years := full_year - kEpochYearBase).
  assert (Hyr : -2147483648 - 70 <= years <= 2147483648 + 1830)
    by (subst years; unfold kEpochYearBase; lia).
  assert (Hleap : - 2 ^ 32 <= NumLeapDays years <= 2 ^ 32)
    by (apply NumLeapDays_bound; change (2 ^ 32) with 4294967296; lia).
  change (2 ^ 32) with 4294967296 in Hleap.
  unfold int_range in Hs, Hm, Hh, Hd, Hd1.
  change (2 ^ 31) with 2147483648 in Hs, Hm, Hh, Hd, Hd1.
  clearbody years full_year.
  generalize dependent (NumLeapDays years). intros leaps Hleap.
  change kPosBase4 with 1. change kPosBase100 with 69.
  change kPosBase400 with 369. change kNegBase4 with 2.
  change kNegBase100 with 30. change kNegBase400 with 30.
  change kSecondsInYear with 31536000. change kSecondsInDay with 86400.
  change kSecondsInHour with 3600. change kSecondsInMinute with 60.
  unfold time_t_range. change (2 ^ 63) with 9223372036854775808.
  destruct (years >=? 0); cbn [app];
    repeat (apply Forall_cons;
            [Z.to_euclidean_division_equations; lia |]);
    apply Forall_nil.
Qed.

Lemma timegmCustom_fits_time_t_witness :
  exists (d time : Z),
    index (if IsLeapYear 2147483647 then kDaysUptoMonthLeapYear
           else kDaysUptoMonth) 11 = Some d /\
    int_sub 2147483647 1 = Some (2147483647 - 1) /\
    timegmCustom (mk_tm 2147483647 2147483647 2147483647 2147483647 11
                    2147483647 0) = Some time /\
    time_t_range time /\
    Forall time_t_range
      (of_timegmCustom
         (mk_tm 2147483647 2147483647 2147483647 2147483647 11 2147483647 0)
         d).
Proof.
  apply (timegmCustom_fits_time_t
           (mk_tm 2147483647 2147483647 2147483647 2147483647 11 2147483647 0)).
  - unfold int_members, int_range. simpl. lia.
  - simpl. lia.
Defined.

Lemma IsLeapYear_400 (year : Z) : IsLeapYear (year + 400) = IsLeapYear year.
Proof.
  rewrite !IsLeapYear_leapb. unfold Gregorian.leapb, kTMYearBase.
  replace ((year + 400 + 1900) mod 4) with ((year + 1900) mod 4)
    by (Z.to_euclidean_division_equations; lia).
  replace ((year + 400 + 1900) mod 100) with ((year + 1900) mod 100)
    by (Z.to_euclidean_division_equations; lia).
  replace ((year + 400 + 1900) mod 400) with ((year + 1900) mod 400)
    by (Z.to_euclidean_division_equations; lia).
  reflexivity.
Qed.

Lemma NumLeapDays_400 (y : Z) : NumLeapDays (y + 400) = NumLeapDays y + 97.
Proof.
  rewrite !NumLeapDays_floor. unfold Gregorian.leap_years_upto.
  Z.to_euclidean_division_equations; lia.
Qed.

(** X8. The Gregorian cycle: adding 400 to [tm_year] adds exactly 146097
    days to the result of [timegmCustom], for every value of the members
    (and leaves it undefined where it was). *)
Theorem timegmCustom_400_years (t : tm) :
  timegmCustom (add_years 400 t) =
  option_map (fun time => time + 146097 * 86400) (timegmCustom t).
Proof.
  unfold timegmCustom, add_years.
  cbn [tm_year tm_mon tm_mday tm_hour tm_min tm_sec].
  rewrite IsLeapYear_400.
  replace (tm_year t + 400 + kTMYearBase - kEpochYearBase)
    with (tm_year t + kTMYearBase - kEpochYearBase + 400) by lia.
  rewrite NumLeapDays_400.
  change kSecondsInYear with 31536000. change kSecondsInDay with 86400.
  destruct (IsLeapYear (tm_year t));
    [destruct (index kDaysUptoMonthLeapYear (tm_mon t))
    | destruct (index kDaysUptoMonth (tm_mon t))];
    destruct (int_sub (tm_mday t) 1);
    cbn [option_map]; try reflexivity; f_equal; lia.
Qed.

(** X9. No member is normalised and none is rejected: as long as the
    members stay [int]s with the day of the month above [INT_MIN], days,
    hours, minutes and seconds added to the members, in or out of their
    calendar ranges, are carried into the result at 86400, 3600, 60 and 1
    seconds each (hour 24 is midnight of the next day, second 60 the next
    minute). *)
Theorem timegmCustom_carries (days hours minutes seconds : Z) (t : tm) :
  int_members t ->
  int_members (add_fields days hours minutes seconds t) ->
  timegmCustom (add_fields days hours minutes seconds t) =
  option_map
    (fun time => time + days * 86400 + hours * 3600 + minutes * 60 + seconds)
    (timegmCustom t).
Proof.
  intros (_ & _ & _ & _ & _ & _ & Hday) (_ & _ & _ & _ & _ & _ & Hday').
  cbn [add_fields tm_mday] in Hday'.
  unfold timegmCustom, add_fields.
  cbn [tm_year tm_mon tm_mday tm_hour tm_min tm_sec].
  rewrite (int_sub_in_range _ _ Hday), (int_sub_in_range _ _ Hday').
  change kSecondsInDay with 86400. change kSecondsInHour with 3600.
  change kSecondsInMinute with 60.
  destruct (IsLeapYear (tm_year t));
    [destruct (index kDaysUptoMonthLeapYear (tm_mon t))
    | destruct (index kDaysUptoMonth (tm_mon t))];
    cbn [option_map]; try reflexivity; f_equal; lia.
Qed.

Lemma timegmCustom_carries_witness :
  timegmCustom (add_fields 0 1 0 1 (mk_tm 59 59 23 31 11 99 0)) =
  option_map (fun time => time + 0 * 86400 + 1 * 3600 + 0 * 60 + 1)
    (timegmCustom (mk_tm 59 59 23 31 11 99 0)).
Proof.
  apply (timegmCustom_carries 0 1 0 1 (mk_tm 59 59 23 31 11 99 0)).
  - unfold int_members, int_range. simpl. lia.
  - unfold int_members, int_range. simpl. lia.
Defined.

Lemma timegmCustom_same_fields (t t' : tm) :
  same_civil_fields t t' -> timegmCustom t = timegmCustom t'.
Proof.
  intros (Hs & Hmi & Hh & Hd & Hmo & Hy). unfold timegmCustom.
  rewrite Hs, Hmi, Hh, Hd, Hmo, Hy. reflexivity.
Qed.

End TimegmCustomFields.

(** ** What a returned flag tells the caller *)
Section ReturnedFlags.
Import Calendar Layout TimeUtils Notions.
Local Open Scope string_scope.

(** X10. [convert8601TimeStringToUnix] returns false, storing nothing and
    logging one error, whenever the output pointer is null, the string does
    not have the expected length, or one of the six fields does not
    convert: a returned true is never given for such a call. *)
Theorem convert8601_ill_formed_fails
    (stringToInt : string -> option Z) (s : string) (p : pointer) :
  p = nullptr \/
  String.length s <> ENCODED_TIME_STRING_EXPECTED_LENGTH \/
  extracted stringToInt s = None ->
  exists entry : LogEntry,
    convert8601TimeStringToUnix stringToInt s p = Returns false None [entry].
Proof.
  intro Hill. destruct p as [| ]; [eexists; reflexivity |].
  destruct Hill as [Hnull | Hill]; [discriminate |].
  destruct (Nat.eq_dec (String.length s) ENCODED_TIME_STRING_EXPECTED_LENGTH)
    as [Hlen | Hlen].
  2: { rewrite (convert8601_wrong_length stringToInt s Hlen). eauto. }
  destruct Hill as [Hwrong | Hfields]; [contradiction |].
  unfold convert8601TimeStringToUnix, extracted in *.
  rewrite Hlen, Nat.eqb_refl. cbn [negb].
  repeat match goal with
         | |- context [match stringToInt ?x with _ => _ end] =>
             destruct (stringToInt x); [| eexists; reflexivity]
         end.
  discriminate.
Qed.

Lemma convert8601_ill_formed_fails_witness :
  exists entry : LogEntry,
    convert8601TimeStringToUnix Collaborators.stringToInt
      "2018-01-02T03:04:0x+0000" address = Returns false None [entry].
Proof.
  apply (convert8601_ill_formed_fails Collaborators.stringToInt
           "2018-01-02T03:04:0x+0000" address).
  right. right. reflexivity.
Defined.

(** X11. Failures and the log.  [convert8601TimeStringToUnix],
    [convertToUtcTimeT] and [convertTimeToUtcIso8601Rfc3339] log exactly one
    error when they return false and nothing when they return true.
    [getCurrentUnixTime] logs only for a null pointer: with a valid pointer
    it logs nothing, also when it returns false for a clock before the
    epoch. *)
Theorem failures_and_the_log :
  (forall (stringToInt : string -> option Z) (s : string) (p : pointer)
          (result : bool) (stored : option Z) (log : list LogEntry),
     convert8601TimeStringToUnix stringToInt s p = Returns result stored log ->
     List.length log = if result then 0%nat else 1%nat) /\
  (forall (utcTm : tm) (ret : pointer)
          (result : bool) (stored : option Z) (log : list LogEntry),
     convertToUtcTimeT utcTm ret = Returns result stored log ->
     List.length log = if result then 0%nat else 1%nat) /\
  (forall (getGmtime : Z -> option tm)
          (strftime : nat -> string -> tm -> string)
          (ticks_per_ms tp : Z) (p : pointer)
          (result : bool) (stored : option string) (log : list LogEntry),
     convertTimeToUtcIso8601Rfc3339 getGmtime strftime ticks_per_ms tp p =
     Returns result stored log ->
     List.length log = if result then 0%nat else 1%nat) /\
  (forall (now : Z) (p : pointer)
          (result : bool) (stored : option Z) (log : list LogEntry),
     getCurrentUnixTime now p = Returns result stored log ->
     result = match p with
              | nullptr => false
              | address => now >=? 0
              end /\
     List.length log = match p with
                       | nullptr => 1%nat
                       | address => 0%nat
                       end).
Proof.
  assert (HconvertToUtcTimeT :
            forall (utcTm : tm) (ret : pointer)
                   (result : bool) (stored : option Z) (log : list LogEntry),
              convertToUtcTimeT utcTm ret = Returns result stored log ->
              List.length log = if result then 0%nat else 1%nat).
  { intros utcTm ret result stored log Hcall. unfold convertToUtcTimeT in Hcall.
    destruct ret; [injection Hcall as <- _ <-; reflexivity |].
    destruct (timegmCustom utcTm); [| discriminate].
    injection Hcall as <- _ <-. reflexivity. }
  split; [| split; [exact HconvertToUtcTimeT | split]].
  - intros stringToInt s p result stored log Hcall.
    unfold convert8601TimeStringToUnix in Hcall.
    destruct p; [injection Hcall as <- _ <-; reflexivity |].
    destruct (negb _); [injection Hcall as <- _ <-; reflexivity |].
    repeat match type of Hcall with
           | context [match stringToInt ?x with _ => _ end] =>
               destruct (stringToInt x);
               [| injection Hcall as <- _ <-; reflexivity]
           end.
    destruct (convertToUtcTimeT _ address) as [[|] [time |] log' |] eqn:Hinner;
      try discriminate;
      pose proof (HconvertToUtcTimeT _ _ _ _ _ Hinner) as Hlog;
      injection Hcall as <- _ <-; exact Hlog.
  - intros getGmtime strftime ticks_per_ms tp p result stored log Hcall.
    unfold convertTimeToUtcIso8601Rfc3339 in Hcall. cbv zeta in Hcall.
    destruct (getGmtime _); [| injection Hcall as <- _ <-; reflexivity].
    destruct (_ =? 0)%nat; [injection Hcall as <- _ <-; reflexivity |].
    destruct p; [discriminate |].
    injection Hcall as <- _ <-. reflexivity.
  - intros now p result stored log Hcall. unfold getCurrentUnixTime in Hcall.
    destruct p; injection Hcall as <- _ <-; split; reflexivity.
Qed.

Lemma failures_and_the_log_witness :
  false = (-1 >=? 0) /\ List.length (@nil LogEntry) = 0%nat.
Proof.
  apply (proj2 (proj2 (proj2 failures_and_the_log)) (-1) address false
           (Some (-1)) []).
  reflexivity.
Defined.

End ReturnedFlags.

(** ** Formatting, then parsing *)
Section FormatThenParse.
Import Calendar Layout TimeUtils Notions Fields.
Local Open Scope string_scope.

Lemma length_append (a b : string) :
  String.length (a ++ b) = (String.length a + String.length b)%nat.
Proof. induction a as [| c a IH]; cbn; [| rewrite IH]; reflexivity. Qed.

Lemma substring_append_left (a b : string) (n m : nat) :
  (n + m <= String.length a)%nat ->
  substring n m (a ++ b) = substring n m a.
Proof.
  revert n m. induction a as [| c a IH]; intros n m Hle.
  - cbn in Hle. assert (n = 0%nat) by lia. assert (m = 0%nat) by lia.
    subst n m. destruct b; reflexivity.
  - destruct n as [| n].
    + destruct m as [| m]; [reflexivity |].
      cbn. f_equal. apply IH. cbn in Hle. lia.
    + cbn. apply IH. cbn in Hle. lia.
Qed.

(** A string that extends a 19-character prefix has the fields of the
    prefix: all six lie in its first 19 characters. *)
Lemma extracted_prefix
    (stringToInt : string -> option Z) (buf rest : string) :
  String.length buf = 19%nat ->
  extracted stringToInt (buf ++ rest) = extracted stringToInt buf.
Proof.
  intro Hlen. unfold extracted, substr.
  rewrite !substring_append_left
    by (rewrite Hlen; apply Nat.leb_le; reflexivity).
  reflexivity.
Qed.

Lemma civilToEpoch_of_tm (t : tm) :
  Civil.civilToEpoch (Civil.of_tm t) = timegmCustom t.
Proof.
  unfold Civil.civilToEpoch. apply timegmCustom_same_fields.
  unfold same_civil_fields, Civil.to_tm, Civil.of_tm. cbn. lia.
Qed.

(** X12. The two codecs fit together.  For a time point at or after the
    epoch, when the rendered prefix YYYY-MM-DDTHH:MM:SS has 19 characters
    whose six fields convert back to the broken-down time, the string
    [convertTimeToUtcIso8601Rfc3339] stores has the 24 characters
    [convert8601TimeStringToUnix] expects, and parsing it gives what
    [convertToUtcTimeT] gives on the broken-down time: the fraction and the
    Z stand where the parser skips the sign and the postfix, so the
    milliseconds are dropped. *)
Theorem parse_of_formatted
    (getGmtime : Z -> option tm) (strftime : nat -> string -> tm -> string)
    (stringToInt : string -> option Z) (ticks_per_ms tp : Z) (utcTm : tm) :
  0 < ticks_per_ms -> 0 <= tp ->
  getGmtime (seconds (milliseconds ticks_per_ms tp)) = Some utcTm ->
  String.length (strftime 28%nat format utcTm) = 19%nat ->
  extracted stringToInt (strftime 28%nat format utcTm) =
    Some (Civil.of_tm utcTm) ->
  exists out : string,
    convertTimeToUtcIso8601Rfc3339 getGmtime strftime ticks_per_ms tp address =
    Returns true (Some out) [] /\
    String.length out = ENCODED_TIME_STRING_EXPECTED_LENGTH /\
    convert8601TimeStringToUnix stringToInt out address =
    convertToUtcTimeT utcTm address.
Proof.
  intros Hpos Htp Hgm Hlen Hfields.
  pose proof (proj1 (milliseconds_sign ticks_per_ms Hpos tp) Htp) as Hms.
  eexists. split; [| split].
  - apply convertTime_success; [exact Hgm |].
    intro Hempty. rewrite Hempty in Hlen. discriminate.
  - rewrite millisecondField_nonnegative by exact Hms.
    rewrite length_append, Hlen. reflexivity.
  - rewrite (convert8601_extracted stringToInt _ (Civil.of_tm utcTm)).
    + rewrite civilToEpoch_of_tm. reflexivity.
    + rewrite millisecondField_nonnegative by exact Hms.
      rewrite length_append, Hlen. reflexivity.
    + rewrite extracted_prefix by exact Hlen. exact Hfields.
Qed.

Lemma parse_of_formatted_witness :
  exists out : string,
    convertTimeToUtcIso8601Rfc3339 Collaborators.getGmtime
      Collaborators.strftime 1000000 1514862245678000000 address =
    Returns true (Some out) [] /\
    String.length out = ENCODED_TIME_STRING_EXPECTED_LENGTH /\
    convert8601TimeStringToUnix Collaborators.stringToInt out address =
    convertToUtcTimeT (mk_tm 5 4 3 2 0 118 0) address.
Proof.
  apply (parse_of_formatted Collaborators.getGmtime Collaborators.strftime
           Collaborators.stringToInt 1000000 1514862245678000000
           (mk_tm 5 4 3 2 0 118 0)).
  - lia.
  - lia.
  - reflexivity.
  - reflexivity.
  - reflexivity.
Defined.

End FormatThenParse.

(** ** Formatting, then parsing, with the modelled collaborators *)
Section FormatThenParseModelled.
Import Calendar Layout TimeUtils Notions Fields Dates Rendering.
Local Open Scope string_scope.

Lemma breakdown_of_civilToEpoch (t : CivilTime) :
  1901 <= year t <= 2100 -> Civil.valid t ->
  exists time : Z,
    Civil.civilToEpoch t = Some time /\
    Collaborators.epochToCivil time = Some t.
Proof.
  intros HY (HM & HD & Hh & Hmi & Hs).
  destruct t as [Y M D h mi s]; cbn [year month day hour minute second] in *.
  pose proof (forallb_interval _ _ _ years_1901_2100 Y ltac:(lia)) as Hyear.
  pose proof (forallb_interval _ _ _ Hyear M ltac:(lia)) as Hmonth.
  unfold RoundTrip.month_round_trips, RoundTrip.month_start,
    Civil.civilToEpoch in *.
  destruct (index_months (IsLeapYear (Y - 1900)) (M - 1) ltac:(lia))
    as [d [Hidx _]].
  pose proof (small_day_in_int 1 ltac:(lia)) as Hfirst.
  assert (Hdecr : int_range (D - 1)).
  { apply small_day_in_int. unfold Civil.days_in_month in HD.
    destruct (M =? 2)%Z; [destruct (Gregorian.leapb Y); lia |].
    destruct ((M =? 4)%Z || (M =? 6)%Z || (M =? 9)%Z || (M =? 11)%Z); lia. }
  rewrite (timegmCustom_sum (Civil.to_tm (mk_civil Y M 1 0 0 0)) d Hidx Hfirst)
    in Hmonth.
  rewrite (timegmCustom_sum (Civil.to_tm (mk_civil Y M D h mi s)) d Hidx Hdecr).
  cbn [Civil.to_tm tm_year tm_mon tm_mday tm_hour tm_min tm_sec option_map
       year month day hour minute second] in *.
  set (base := (Y - 1900 - 70) * 365 + NumLeapDays (Y - 1900 - 70) + d) in *.
  destruct (time_of_day_split (base + (1 - 1)) 0 0 0
              ltac:(lia) ltac:(lia) ltac:(lia)) as [Hmidnight _].
  rewrite Hmidnight in Hmonth.
  pose proof (forallb_interval _ _ _ Hmonth D ltac:(lia)) as Hdate.
  cbv beta in Hdate.
  replace (base + (1 - 1) + (D - 1)) with (base + (D - 1)) in Hdate by lia.
  destruct (time_of_day_split (base + (D - 1)) h mi s Hh Hmi Hs)
    as (Hday & Hhour & Hmin & Hsec).
  eexists. split; [reflexivity |].
  unfold Collaborators.epochToCivil, Collaborators.getGmtime.
  rewrite Hday, Hhour, Hmin, Hsec.
  destruct (Collaborators.civil_from_days (base + (D - 1))) as [[y m] dd].
  unfold RoundTrip.date_eqb in Hdate.
  apply andb_true_iff in Hdate. destruct Hdate as [Hdate HdD].
  apply andb_true_iff in Hdate. destruct Hdate as [HyY HmM].
  apply Z.eqb_eq in HyY, HmM, HdD. subst y m dd.
  unfold Civil.of_tm.
  cbn [option_map tm_year tm_mon tm_mday tm_hour tm_min tm_sec].
  apply f_equal. f_equal; lia.
Qed.

Lemma years_render : forallb year_renders (interval 1970 2101) = true.
Proof. vm_compute. reflexivity. Qed.

Lemma fields_render : forallb field_renders (interval 0 100) = true.
Proof. vm_compute. reflexivity. Qed.

Lemma length_2 (s : string) :
  String.length s = 2%nat -> exists a b, s = String a (String b "").
Proof.
  destruct s as [| a [| b [| c s]]]; try discriminate. eauto.
Qed.

Lemma length_4 (s : string) :
  String.length s = 4%nat ->
  exists a b c d, s = String a (String b (String c (String d ""))).
Proof.
  destruct s as [| a [| b [| c [| d [| e s]]]]]; try discriminate. eauto 6.
Qed.

Lemma year_rendered (Y : Z) :
  1970 <= Y <= 2100 ->
  exists a b c d,
    decimal Y = String a (String b (String c (String d ""))) /\
    Collaborators.stringToInt (String a (String b (String c (String d ""))))
    = Some Y.
Proof.
  intro HY.
  pose proof (forallb_interval _ _ _ years_render Y ltac:(lia)) as Hcheck.
  unfold year_renders, reads_back in Hcheck.
  apply andb_true_iff in Hcheck. destruct Hcheck as [Hlen Hread].
  apply Nat.eqb_eq in Hlen.
  destruct (length_4 _ Hlen) as (a & b & c & d & Heq).
  exists a, b, c, d. split; [exact Heq |].
  rewrite Heq in Hread.
  destruct (Collaborators.stringToInt _) as [v |]; [| discriminate].
  apply Z.eqb_eq in Hread. congruence.
Qed.

Lemma field_rendered (v : Z) :
  0 <= v <= 99 ->
  exists a b,
    setfill_setw "0" 2 v = String a (String b "") /\
    Collaborators.stringToInt (String a (String b "")) = Some v.
Proof.
  intro Hv.
  pose proof (forallb_interval _ _ _ fields_render v ltac:(lia)) as Hcheck.
  unfold field_renders, reads_back in Hcheck.
  apply andb_true_iff in Hcheck. destruct Hcheck as [Hlen Hread].
  apply Nat.eqb_eq in Hlen.
  destruct (length_2 _ Hlen) as (a & b & Heq).
  exists a, b. split; [exact Heq |].
  rewrite Heq in Hread.
  destruct (Collaborators.stringToInt _) as [v' |]; [| discriminate].
  apply Z.eqb_eq in Hread. congruence.
Qed.

(** The modelled [strftime] renders a valid civil time of 1970..2100 on 19
    characters whose fields the modelled [stringToInt] reads back. *)
Lemma strftime_reads_back (c : CivilTime) :
  1970 <= year c <= 2100 -> Civil.valid c ->
  String.length (Collaborators.strftime 28%nat format (Civil.to_tm c)) = 19%nat /\
  extracted Collaborators.stringToInt
    (Collaborators.strftime 28%nat format (Civil.to_tm c)) = Some c.
Proof.
  intros HY (HM & HD & Hh & Hmi & Hs).
  destruct c as [Y M D h mi s]. cbn [year month day hour minute second] in *.
  pose proof (days_in_month_bounds Y M) as Hdim.
  destruct (year_rendered Y HY) as (y1 & y2 & y3 & y4 & HeY & HrY).
  destruct (field_rendered M ltac:(lia)) as (m1 & m2 & HeM & HrM).
  destruct (field_rendered D ltac:(lia)) as (d1 & d2 & HeD & HrD).
  destruct (field_rendered h ltac:(lia)) as (h1 & h2 & Heh & Hrh).
  destruct (field_rendered mi ltac:(lia)) as (n1 & n2 & Hemi & Hrmi).
  destruct (field_rendered s ltac:(lia)) as (s1 & s2 & Hes & Hrs).
  unfold Collaborators.strftime, format, Civil.to_tm.
  cbn [Collaborators.render Collaborators.conversion Ascii.eqb Bool.eqb
       year month day hour minute second
       tm_year tm_mon tm_mday tm_hour tm_min tm_sec].
  replace (Y - 1900 + 1900) with Y by lia.
  replace (M - 1 + 1) with M by lia.
  rewrite HeY, HeM, HeD, Heh, Hemi, Hes.
  split; [reflexivity |].
  unfold extracted, substr.
  cbn [append String.length Nat.ltb Nat.leb substring
       ENCODED_TIME_STRING_YEAR_OFFSET ENCODED_TIME_STRING_MONTH_OFFSET
       ENCODED_TIME_STRING_DAY_OFFSET ENCODED_TIME_STRING_HOUR_OFFSET
       ENCODED_TIME_STRING_MINUTE_OFFSET ENCODED_TIME_STRING_SECOND_OFFSET
       ENCODED_TIME_STRING_YEAR_STRING_LENGTH
       ENCODED_TIME_STRING_MONTH_STRING_LENGTH
       ENCODED_TIME_STRING_DAY_STRING_LENGTH
       ENCODED_TIME_STRING_HOUR_STRING_LENGTH
       ENCODED_TIME_STRING_MINUTE_STRING_LENGTH
       ENCODED_TIME_STRING_SECOND_STRING_LENGTH
       ENCODED_TIME_STRING_DASH_SEPARATOR_STRING
       ENCODED_TIME_STRING_T_SEPARATOR_STRING
       ENCODED_TIME_STRING_COLON_SEPARATOR_STRING Nat.add].
  rewrite HrY, HrM, HrD, Hrh, Hrmi, Hrs. reflexivity.
Qed.

Lemma to_tm_of_tm (t : tm) :
  tm_isdst t = 0 -> Civil.to_tm (Civil.of_tm t) = t.
Proof.
  destruct t as [s mi h d mo y dst]. cbn. intros ->.
  unfold Civil.to_tm, Civil.of_tm. cbn. f_equal; lia.
Qed.

(** Every second from the start of 1901 to the end of 2100 is the value of
    a valid civil time of those years, which the modelled [getGmtime]
    returns. *)
Lemma getGmtime_in_range (time : Z) :
  year_1901 <= time < year_2101 ->
  exists c : CivilTime,
    Civil.valid c /\ 1901 <= year c <= 2100 /\
    Civil.civilToEpoch c = Some time /\
    Collaborators.getGmtime time = Some (Civil.to_tm c).
Proof.
  intro Htime.
  destruct (day_number_onto (time / 86400)) as (c0 & [HM HD] & Hdn & _).
  set (r := time mod 86400).
  assert (Hr : 0 <= r < 86400) by (apply Z.mod_pos_bound; lia).
  set (c := mk_civil (year c0) (month c0) (day c0)
              (r / 3600) ((r / 60) mod 60) (r mod 60)).
  assert (Hvalid : Civil.valid c).
  { unfold Civil.valid, c. cbn [year month day hour minute second].
    repeat split; try apply HM; try apply HD;
      Z.to_euclidean_division_equations; lia. }
  assert (Hsec : day_number c * 86400 + time_of_day c = time).
  { unfold day_number, time_of_day, c in *.
    cbn [year month day hour minute second]. rewrite Hdn. subst r.
    Z.to_euclidean_division_equations; lia. }
  assert (Hepoch : Civil.civilToEpoch c = Some time)
    by (rewrite civilToEpoch_days
          by (try apply Hvalid; exact (valid_decrement c Hvalid));
        f_equal; exact Hsec).
  assert (Hyear : 1901 <= year c <= 2100).
  { split.
    - destruct (Z_lt_le_dec (year c) 1901) as [Hlt | Hge]; [| exact Hge].
      exfalso.
      assert (Hv0 : Civil.valid (mk_civil 1901 1 1 0 0 0))
        by (unfold Civil.valid; cbn; lia).
      pose proof (seconds_earlier c (mk_civil 1901 1 1 0 0 0) Hvalid Hv0
                    (or_introl Hlt)) as Hless.
      change (day_number (mk_civil 1901 1 1 0 0 0) * 86400 +
              time_of_day (mk_civil 1901 1 1 0 0 0))
        with year_1901 in Hless.
      lia.
    - destruct (Z_le_gt_dec (year c) 2100) as [Hle | Hgt]; [exact Hle |].
      exfalso.
      assert (Hv1 : Civil.valid (mk_civil 2101 1 1 0 0 0))
        by (unfold Civil.valid; cbn; lia).
      destruct (earlier_trichotomy (mk_civil 2101 1 1 0 0 0) c)
        as [Hbefore | [Hsame | Hafter]].
      + pose proof (seconds_earlier _ c Hv1 Hvalid Hbefore) as Hless.
        change (day_number (mk_civil 2101 1 1 0 0 0) * 86400 +
                time_of_day (mk_civil 2101 1 1 0 0 0))
          with year_2101 in Hless.
        lia.
      + rewrite <- Hsame in Hsec.
        change (day_number (mk_civil 2101 1 1 0 0 0) * 86400 +
                time_of_day (mk_civil 2101 1 1 0 0 0))
          with year_2101 in Hsec.
        lia.
      + destruct Hvalid as (HM' & HD' & Hh' & Hmi' & Hs').
        unfold earlier in Hafter.
        cbn [year month day hour minute second] in Hafter. lia. }
  exists c. split; [exact Hvalid |]. split; [exact Hyear |].
  split; [exact Hepoch |].
  destruct (breakdown_of_civilToEpoch c Hyear Hvalid)
    as (time' & Hepoch' & Hback).
  rewrite Hepoch in Hepoch'. injection Hepoch' as <-.
  unfold Collaborators.epochToCivil, Collaborators.getGmtime in *.
  destruct (Collaborators.civil_from_days (time / 86400)) as [[y m] d].
  cbn [option_map] in Hback.
  apply (f_equal (option_map Civil.to_tm)) in Hback.
  cbn [option_map] in Hback.
  rewrite to_tm_of_tm in Hback by reflexivity. exact Hback.
Qed.

Lemma civilToEpoch_before_1970 (c : CivilTime) :
  Civil.valid c -> year c < 1970 ->
  exists time : Z, Civil.civilToEpoch c = Some time /\ time < 0.
Proof.
  intros Hvalid Hlt.
  assert (Hv0 : Civil.valid (mk_civil 1970 1 1 0 0 0))
    by (unfold Civil.valid; cbn; lia).
  pose proof (seconds_earlier c (mk_civil 1970 1 1 0 0 0) Hvalid Hv0
                (or_introl Hlt)) as Hless.
  change (day_number (mk_civil 1970 1 1 0 0 0) * 86400 +
          time_of_day (mk_civil 1970 1 1 0 0 0)) with 0 in Hless.
  rewrite civilToEpoch_days
    by (try apply Hvalid; exact (valid_decrement c Hvalid)).
  eauto.
Qed.

(** X14. With [getGmtime] modelled from the specification, for every second
    from the start of 1901 to the end of 2100 [convertToUtcTimeT] applied to
    the broken-down time returns that second: the conversion undoes the
    breakdown, the other half of the round trip. *)
Theorem convertToUtcTimeT_of_getGmtime (time : Z) :
  year_1901 <= time < year_2101 ->
  exists utcTm : tm,
    Collaborators.getGmtime time = Some utcTm /\
    convertToUtcTimeT utcTm address = Returns true (Some time) [].
Proof.
  intro Htime.
  destruct (getGmtime_in_range time Htime) as (c & _ & _ & Hepoch & Hgm).
  exists (Civil.to_tm c). split; [exact Hgm |].
  unfold convertToUtcTimeT. unfold Civil.civilToEpoch in Hepoch.
  rewrite Hepoch. reflexivity.
Qed.

Lemma convertToUtcTimeT_of_getGmtime_witness :
  exists utcTm : tm,
    Collaborators.getGmtime (-1) = Some utcTm /\
    convertToUtcTimeT utcTm address = Returns true (Some (-1)) [].
Proof.
  apply (convertToUtcTimeT_of_getGmtime (-1)).
  unfold year_1901, year_2101. lia.
Defined.

(** X13. With the collaborators modelled from the specification, formatting
    a time point between the epoch and the end of the year 2100 and parsing
    the string back succeeds and stores the whole seconds of the time point:
    the two operations are inverse of each other up to the milliseconds,
    which the parser discards. *)
Theorem parse_of_formatted_is_whole_seconds (ticks_per_ms tp : Z) :
  0 < ticks_per_ms -> 0 <= tp ->
  seconds (milliseconds ticks_per_ms tp) < year_2101 ->
  exists out : string,
    convertTimeToUtcIso8601Rfc3339 Collaborators.getGmtime
      Collaborators.strftime ticks_per_ms tp address =
    Returns true (Some out) [] /\
    String.length out = ENCODED_TIME_STRING_EXPECTED_LENGTH /\
    convert8601TimeStringToUnix Collaborators.stringToInt out address =
    Returns true (Some (seconds (milliseconds ticks_per_ms tp))) [].
Proof.
  intros Hpos Htp Hbound.
  pose proof (proj1 (milliseconds_sign ticks_per_ms Hpos tp) Htp) as Hms.
  assert (Hsec : 0 <= seconds (milliseconds ticks_per_ms tp)).
  { rewrite seconds_nonnegative by exact Hms. apply Z.div_pos; lia. }
  destruct (getGmtime_in_range (seconds (milliseconds ticks_per_ms tp)))
    as (c & Hvalid & Hyear & Hepoch & Hgm).
  { unfold year_1901. lia. }
  assert (Hyear' : 1970 <= year c <= 2100).
  { split; [| lia].
    destruct (Z_lt_le_dec (year c) 1970) as [Hlt | Hge]; [| exact Hge].
    exfalso.
    destruct (civilToEpoch_before_1970 c Hvalid Hlt) as (t & Ht & Hneg).
    rewrite Hepoch in Ht. injection Ht as <-. lia. }
  destruct (strftime_reads_back c Hyear' Hvalid) as [Hlen Hfields].
  eexists. split; [| split].
  - apply convertTime_success; [exact Hgm |].
    intro Hempty. rewrite Hempty in Hlen. discriminate.
  - rewrite millisecondField_nonnegative by exact Hms.
    rewrite length_append, Hlen. reflexivity.
  - rewrite (convert8601_extracted Collaborators.stringToInt _ c).
    + rewrite Hepoch. reflexivity.
    + rewrite millisecondField_nonnegative by exact Hms.
      rewrite length_append, Hlen. reflexivity.
    + rewrite extracted_prefix by exact Hlen. exact Hfields.
Qed.

Lemma parse_of_formatted_is_whole_seconds_witness :
  exists out : string,
    convertTimeToUtcIso8601Rfc3339 Collaborators.getGmtime
      Collaborators.strftime 1000000 1514862245678000000 address =
    Returns true (Some out) [] /\
    String.length out = ENCODED_TIME_STRING_EXPECTED_LENGTH /\
    convert8601TimeStringToUnix Collaborators.stringToInt out address =
    Returns true (Some (seconds (milliseconds 1000000 1514862245678000000))) [].
Proof.
  apply (parse_of_formatted_is_whole_seconds 1000000 1514862245678000000).
  - lia.
  - lia.
  - vm_compute. reflexivity.
Defined.

End FormatThenParseModelled.
